(** * Bin-packing priority functions of the scheduler

    A shallow embedding of the two priority map functions of package
    [priorities]:

    - the generic [ResourceBinPackingPriorityMap] of type [ResourceBinPacking],
    - the older [ScarceResourceBinPackingPriorityMap]
      (scarce_resource_bin_packing.go),

    with their helpers [calculateScareResourceScore] and
    [podRequestsResource], followed by the properties of the scorers. *)

From Stdlib Require Import ZArith Lia.
From stdpp Require Import gmap strings list fin_maps.

Local Open Scope Z_scope.

(** ** Machine integers

    Go's [int64] (and [int], which is 64 bits wide on the platforms the
    scheduler is built for, so that [int(x)] of an [int64] is the identity)
    is a [Z] kept in the signed 64-bit range by [wrap64]. *)

Definition minInt64 : Z := - 2 ^ 63.
Definition maxInt64 : Z := 2 ^ 63 - 1.

Definition inInt64 (z : Z) : Prop := minInt64 <= z <= maxInt64.

Definition wrap64 (z : Z) : Z := (z + 2 ^ 63) mod 2 ^ 64 - 2 ^ 63.

Definition add64 (a b : Z) : Z := wrap64 (a + b).
Definition mul64 (a b : Z) : Z := wrap64 (a * b).

(** A run either returns a value or stops with a run-time panic. The only
    panic these functions can raise is the integer division by zero. *)

Inductive runtimePanic : Type :=
| DivideByZero.

Inductive outcome (A : Type) : Type :=
| Returns (a : A)
| Panics (p : runtimePanic).

Arguments Returns {A} a.
Arguments Panics {A} p.

Definition bind {A B : Type} (m : outcome A) (k : A -> outcome B) : outcome B :=
  match m with
  | Returns a => k a
  | Panics p => Panics p
  end.

Notation "'do' x <- m ; k" := (bind m (fun x => k))
  (at level 10, x name, m at level 100, k at level 200).

(** [a / b] on [int64]: the quotient truncated toward zero; a zero divisor
    raises the run-time panic. *)
Definition div64 (a b : Z) : outcome Z :=
  if b =? 0 then Panics DivideByZero else Returns (wrap64 (Z.quot a b)).

(** ** API objects *)

(** Modelled from the spec: the type [resource.Quantity] (package
    k8s.io/apimachinery/pkg/api/resource) and its methods [Value] and
    [MilliValue] are not among the sources. A quantity is an integral amount
    in the minor unit the predicate inspects, the milli-unit; [MilliValue]
    is that amount and [Value] the amount in whole units, rounded up (away
    from zero). *)
Record Quantity : Type := { milli : Z }.

Definition MilliValue (q : Quantity) : Z := milli q.

Definition Value (q : Quantity) : Z :=
  if 0 <=? milli q then (milli q + 999) / 1000 else - ((- milli q + 999) / 1000).

(** [resource.NewQuantity(value, _)]: [value] whole units. *)
Definition NewQuantity (value : Z) : Quantity := {| milli := value * 1000 |}.

(** [resource.NewMilliQuantity(value, _)]: [value] milli-units. *)
Definition NewMilliQuantity (value : Z) : Quantity := {| milli := value |}.

(** Modelled from the spec: the API types of k8s.io/api/core/v1 are not
    among the sources; they are given here with the fields the scorers read.
    [v1.ResourceName] is a string type and [v1.ResourceList] is
    [map[ResourceName]resource.Quantity]; a pod carries its regular and its
    init containers, each with its requests and limits. The scorers receive
    pointers to a pod and to a node state; both are taken to be non-nil. *)
Abbreviation ResourceName := string (only parsing).

Record ResourceRequirements : Type := {
  Limits : gmap string Quantity;
  Requests : gmap string Quantity
}.

Record Container : Type := { Resources : ResourceRequirements }.

Record PodSpec : Type := {
  InitContainers : list Container;
  Containers : list Container;
  NodeName : string
}.

Record Pod : Type := { Spec : PodSpec }.

Record Node : Type := { Name : string }.

(** Modelled from the spec: package [schedulerapi] is not among the sources.
    [HostPriority] is the output pair of a node's name and its score, and
    [MaxPriority] is 10. *)
Record HostPriority : Type := { Host : string; Score : Z }.

Definition MaxPriority : Z := 10.

(** The zero value [schedulerapi.HostPriority{}]. *)
Definition emptyHostPriority : HostPriority := {| Host := ""; Score := 0 |}.

(** An [error] built by [fmt.Errorf] is represented by its message; the nil
    error is [None]. *)
Definition error : Type := string.

(** ** Node state

    Modelled from the spec: package [schedulercache] is not among the
    sources. [Resource] holds the per-dimension totals of a node, with one
    field for each of CPU, memory and ephemeral storage and a map for the
    extended (scalar) resources; [NodeInfo] holds the node (nil when the
    identity cannot be resolved), the pods bound to it, and the requested
    and allocatable totals. *)
Record Resource : Type := {
  MilliCPU : Z;
  Memory : Z;
  EphemeralStorage : Z;
  ScalarResources : gmap string Z
}.

Record NodeInfo : Type := {
  node : option Node;
  pods : list Pod;
  requestedResource : Resource;
  allocatableResource : Resource
}.

Module NodeInfoMethods.
Definition Node (n : NodeInfo) : option Node := node n.
Definition Pods (n : NodeInfo) : list Pod := pods n.
Definition RequestedResource (n : NodeInfo) : Resource := requestedResource n.
Definition AllocatableResource (n : NodeInfo) : Resource := allocatableResource n.
End NodeInfoMethods.

(** ** Go map primitives *)

(** [m[k]] on a [map[ResourceName]int64]: the zero value for a missing key. *)
Definition index (m : gmap string Z) (k : string) : Z := default 0 (m !! k).

(** [for k, v := range m { if f(k, v) { return true } }; return false]: the
    iteration order is unspecified, and the loop answers whether some entry
    satisfies [f]. *)
Definition rangeAny {V : Type} (f : string -> V -> bool) (m : gmap string V) : bool :=
  existsb (fun kv => f kv.1 kv.2) (map_to_list m).

(** [for _, c := range cs { if q, ok := c.Resources.Requests[resource]; ok
    { acc += q.Value() } }], started from [acc]. Both scorers run this loop;
    the scarce one converts each value to [int] first. *)
Definition addRequests (resource : string) (cs : list Container) (acc : Z) : Z :=
  fold_left
    (fun acc container =>
       match Requests (Resources container) !! resource with
       | Some qunatity => add64 acc (Value qunatity)
       | None => acc
       end)
    cs acc.

(** ** The generic scorer (type [ResourceBinPacking]) *)

Module Generic.
Import NodeInfoMethods.

Record ResourceBinPacking : Type := { resource : ResourceName }.

Definition ResourceBinPackingPriorityDefault : ResourceBinPacking :=
  {| resource := "" |}.

(** The already-used total: the [if]/[else if] chain at the head of
    [calculateScareResourceScore], lines 82-90. *)
Definition usedResource (nodeInfo : NodeInfo) (resource : ResourceName) : Z :=
  if bool_decide (resource = "cpu") then MilliCPU (RequestedResource nodeInfo)
  else if bool_decide (resource = "storage") then Memory (RequestedResource nodeInfo)
  else if bool_decide (resource = "ephemeral-storage") then
         EphemeralStorage (RequestedResource nodeInfo)
  else index (ScalarResources (RequestedResource nodeInfo)) resource.

(** The pod's demand: the two loops of [calculateScareResourceScore] and
    the comparison after them, lines 80 and 91-104. *)
Definition reqResource (pod : Pod) (resource : ResourceName) : Z :=
  let reqResource := 0 in
  let reqResourceInit := 0 in
  let reqResource := addRequests resource (Containers (Spec pod)) reqResource in
  let reqResourceInit :=
    addRequests resource (InitContainers (Spec pod)) reqResourceInit in
  if reqResourceInit >? reqResource then reqResourceInit else reqResource.

Definition calculateScareResourceScore
    (nodeInfo : NodeInfo) (pod : Pod) (resource : ResourceName) : outcome Z :=
  let usedResource := usedResource nodeInfo resource in
  let reqResource := reqResource pod resource in
  let available := index (ScalarResources (AllocatableResource nodeInfo)) resource in
  div64 (mul64 (add64 usedResource reqResource) MaxPriority) available.

Definition containerRequestsResource (resource : ResourceName) (container : Container) : bool :=
  if rangeAny (fun resName quantity =>
                 bool_decide (resName = resource) && (MilliValue quantity >? 0))
              (Requests (Resources container))
  then true
  else if rangeAny (fun resName quantity =>
                      bool_decide (resName = resource) && (MilliValue quantity >? 0))
                   (Limits (Resources container))
  then true
  else false.

Definition podRequestsResource (pod : Pod) (resource : ResourceName) : bool :=
  if existsb (containerRequestsResource resource) (InitContainers (Spec pod)) then true
  else if existsb (containerRequestsResource resource) (Containers (Spec pod)) then true
  else false.

Definition ResourceBinPackingPriorityMap
    (r : ResourceBinPacking) (pod : Pod) (nodeInfo : NodeInfo)
    : outcome (HostPriority * option error) :=
  let node := Node nodeInfo in
  if (String.length (resource r) =? 0)%nat then
    Returns (emptyHostPriority, Some "resource not defined"%string)
  else
    match node with
    | None => Returns (emptyHostPriority, Some "node not found"%string)
    | Some node =>
        do score <- (if negb (podRequestsResource pod (resource r)) then Returns 0
                     else calculateScareResourceScore nodeInfo pod (resource r)) ;
        Returns ({| Host := Name node; Score := score |}, None)
    end.

(** [NewResourceBinPacking] returns the map function bound to [resource]
    (and a nil reduce function). *)
Definition NewResourceBinPacking (resource : ResourceName)
    : Pod -> NodeInfo -> outcome (HostPriority * option error) :=
  ResourceBinPackingPriorityMap {| resource := resource |}.
End Generic.

(** ** The scarce-resource scorer (scarce_resource_bin_packing.go) *)

Module Scarce.
Import NodeInfoMethods.

Record ScarceResourceBinPacking : Type := { scarceResource : string }.

(** The already-used total: the nested loop of
    [calculateScareResourceScore], lines 73-79, over the containers of every
    pod bound to the node. *)
Definition usedResource (nodeInfo : NodeInfo) (resource : string) : Z :=
  fold_left
    (fun usedResource pod => addRequests resource (Containers (Spec pod)) usedResource)
    (Pods nodeInfo) 0.

(** The pod's demand: the first loop of [calculateScareResourceScore],
    lines 66 and 68-72, over the containers handed in. *)
Definition reqResource (containers : list Container) (resource : string) : Z :=
  let reqResource := 0 in
  addRequests resource containers reqResource.

Definition calculateScareResourceScore
    (nodeInfo : NodeInfo) (containers : list Container) (resource : string) : outcome Z :=
  let reqResource := reqResource containers resource in
  let usedResource := usedResource nodeInfo resource in
  let available := index (ScalarResources (AllocatableResource nodeInfo)) resource in
  div64 (mul64 (add64 usedResource reqResource) MaxPriority) available.

Definition containerRequestsResource (resource : string) (container : Container) : bool :=
  if rangeAny (fun resName quantity =>
                 bool_decide (resName = resource) && (MilliValue quantity >? 0))
              (Requests (Resources container))
  then true
  else if rangeAny (fun resName quantity =>
                      bool_decide (resName = resource) && (MilliValue quantity >? 0))
                   (Limits (Resources container))
  then true
  else false.

Definition podRequestsResource (pod : Pod) (resource : string) : bool :=
  if existsb (containerRequestsResource resource) (InitContainers (Spec pod)) then true
  else if existsb (containerRequestsResource resource) (Containers (Spec pod)) then true
  else false.

Definition ScarceResourceBinPackingPriorityMap
    (s : ScarceResourceBinPacking) (pod : Pod) (nodeInfo : NodeInfo)
    : outcome (HostPriority * option error) :=
  let node := Node nodeInfo in
  match node with
  | None => Returns (emptyHostPriority, Some "node not found"%string)
  | Some node =>
      do score <- (if negb (podRequestsResource pod (scarceResource s)) then Returns 0
                   else calculateScareResourceScore
                          nodeInfo (Containers (Spec pod)) (scarceResource s)) ;
      Returns ({| Host := Name node; Score := score |}, None)
  end.

Definition NewScarceResourceBinPacking (scarceResource : string)
    : Pod -> NodeInfo -> outcome (HostPriority * option error) :=
  ScarceResourceBinPackingPriorityMap {| scarceResource := scarceResource |}.
End Scarce.

(** ** Fixtures of scarce_resource_bin_packing_test.go *)

Module Fixtures.
Definition scarceResource : string := "intel.com/foo".

Definition requesting (resource : string) (units : Z) : Container :=
  {| Resources := {| Limits := ∅; Requests := {[ resource := NewQuantity units ]} |} |}.

Definition noResources : PodSpec :=
  {| InitContainers := []; Containers := []; NodeName := "" |}.

Definition scareResourcePod1 : PodSpec :=
  {| InitContainers := []; Containers := [requesting scarceResource 2]; NodeName := "" |}.

Definition scareResourcePod2 : PodSpec :=
  {| InitContainers := []; Containers := [requesting scarceResource 4]; NodeName := "" |}.

Definition machine2Pod : PodSpec :=
  {| InitContainers := []; Containers := [requesting scarceResource 2];
     NodeName := "machine2" |}.

(** The node state the test obtains from [makeNodeScarceResource] and
    [CreateNodeNameToInfoMap]: the node's allocatable totals, the pods bound
    to it and the requested total of [resource] accumulated from them. *)
Definition nodeInfoFor (name : string) (milliCPU memory : Z) (resource : string)
    (allocatable : Z) (bound : list Pod) (requested : Z) : NodeInfo :=
  {| node := Some {| Name := name |};
     pods := bound;
     requestedResource :=
       {| MilliCPU := 0; Memory := 0; EphemeralStorage := 0;
          ScalarResources := {[ resource := requested ]} |};
     allocatableResource :=
       {| MilliCPU := milliCPU; Memory := memory; EphemeralStorage := 0;
          ScalarResources := {[ resource := allocatable ]} |} |}.
End Fixtures.


(** ** The properties in the words of the specification

    These definitions follow the specification's text, not the code; the
    theorems below compare the scorers with them. *)

Module Stated.

(** The quantity of [r] a container requests, zero when it declares none. *)
Definition requested (r : ResourceName) (c : Container) : Z :=
  match Requests (Resources c) !! r with
  | Some q => Value q
  | None => 0
  end.

(** A container declares a request or a limit for [r] that is strictly
    positive in milli-units. *)
Definition declares (r : ResourceName) (c : Container) : Prop :=
  exists q, (Requests (Resources c) !! r = Some q \/ Limits (Resources c) !! r = Some q)
            /\ 0 < MilliValue q.

(** [RequestsResource(pod, resourceName)]: some container, regular or init,
    declares such a request or limit. *)
Definition RequestsResource (pod : Pod) (r : ResourceName) : Prop :=
  exists c, (c ∈ InitContainers (Spec pod) \/ c ∈ Containers (Spec pod)) /\ declares r c.

(** [S]: the sum of the requested quantities across a list of containers. *)
Definition sumRequested (r : ResourceName) (cs : list Container) : Z :=
  foldr (fun c acc => requested r c + acc) 0 cs.

(** [I]: the maximum single requested quantity across a list of containers,
    zero if none requests the resource. *)
Definition maxRequested (r : ResourceName) (cs : list Container) : Z :=
  foldr (fun c acc => Z.max (requested r c) acc) 0 cs.

(** [EffectiveDemand(pod, resourceName) = max(S, I)]. *)
Definition EffectiveDemand (pod : Pod) (r : ResourceName) : Z :=
  Z.max (sumRequested r (Containers (Spec pod)))
        (maxRequested r (InitContainers (Spec pod))).

(** The sum of the requests for [r] over the containers of the bound pods. *)
Definition boundRequested (r : ResourceName) (bound : list Pod) : Z :=
  foldr (fun p acc => sumRequested r (Containers (Spec p)) + acc) 0 bound.

(** [floor((used + demand) * MaxPriority / available)]. *)
Definition score (used demand available : Z) : Z :=
  ((used + demand) * MaxPriority) / available.

End Stated.

(** ** Scenarios

    The pods and node states the examples below are evaluated at. *)

Module Scenarios.
Import Fixtures.

Definition podOf (spec : PodSpec) : Pod := {| Spec := spec |}.

(** The two nodes of the tests, with nothing bound to them. *)
Definition machine1 : NodeInfo := nodeInfoFor "machine1" 4000 10000 scarceResource 8 [] 0.
Definition machine2 : NodeInfo := nodeInfoFor "machine2" 4000 10000 scarceResource 4 [] 0.

(** [machine2] with [machine2Pod] bound to it. *)
Definition machine2Busy : NodeInfo :=
  nodeInfoFor "machine2" 4000 10000 scarceResource 4 [podOf machine2Pod] 2.

(** [machine2] with a bound pod that holds all four units. *)
Definition machine2Full : NodeInfo :=
  nodeInfoFor "machine2" 4000 10000 scarceResource 4 [podOf scareResourcePod2] 4.

(** A node state whose node cannot be resolved. *)
Definition staleNodeInfo : NodeInfo :=
  {| node := None; pods := [];
     requestedResource := requestedResource machine1;
     allocatableResource := allocatableResource machine1 |}.

(** A node that does not offer the scarce resource at all. *)
Definition plainMachine : NodeInfo :=
  {| node := Some {| Name := "machine3" |}; pods := [];
     requestedResource :=
       {| MilliCPU := 0; Memory := 0; EphemeralStorage := 0; ScalarResources := ∅ |};
     allocatableResource :=
       {| MilliCPU := 4000; Memory := 10000; EphemeralStorage := 0;
          ScalarResources := ∅ |} |}.

(** A node with 4096 bytes of memory and 500 millicores already requested. *)
Definition loadedMachine : NodeInfo :=
  {| node := Some {| Name := "machine4" |}; pods := [];
     requestedResource :=
       {| MilliCPU := 500; Memory := 4096; EphemeralStorage := 7;
          ScalarResources := ∅ |};
     allocatableResource :=
       {| MilliCPU := 4000; Memory := 10000; EphemeralStorage := 100;
          ScalarResources := ∅ |} |}.

(** [machine2] whose requested total is so large that ten times it leaves
    the 64-bit range. *)
Definition hugeUsed : Z := 922337203685477581.

Definition machine2Huge : NodeInfo :=
  nodeInfoFor "machine2" 4000 10000 scarceResource 4 [] hugeUsed.

(** One init container requesting 6 and two regular containers requesting 1
    each. *)
Definition initHeavy : PodSpec :=
  {| InitContainers := [requesting scarceResource 6];
     Containers := [requesting scarceResource 1; requesting scarceResource 1];
     NodeName := "" |}.

(** Two init containers requesting 3 and 4, one regular container
    requesting 5. *)
Definition twoInits : PodSpec :=
  {| InitContainers := [requesting scarceResource 3; requesting scarceResource 4];
     Containers := [requesting scarceResource 5];
     NodeName := "" |}.

(** A pod whose only container declares one unit under the empty name, and
    a node that offers eight units under it. *)
Definition namelessPod : PodSpec :=
  {| InitContainers := []; Containers := [requesting "" 1]; NodeName := "" |}.

Definition namelessMachine : NodeInfo := nodeInfoFor "machine5" 4000 10000 "" 8 [] 0.

End Scenarios.

(** ** Further pods and node states *)

Module EdgeCases.
Import Fixtures.

(** A container that declares a limit for [resource] and no request. *)
Definition limited (resource : string) (units : Z) : Container :=
  {| Resources := {| Limits := {[ resource := NewQuantity units ]}; Requests := ∅ |} |}.

Definition limitsOnly : PodSpec :=
  {| InitContainers := []; Containers := [limited scarceResource 2]; NodeName := "" |}.

(** Only the init container requests the resource. *)
Definition initOnly : PodSpec :=
  {| InitContainers := [requesting scarceResource 6]; Containers := []; NodeName := "" |}.

(** The same containers in two orders. *)
Definition mixed : PodSpec :=
  {| InitContainers := [requesting scarceResource 1; requesting scarceResource 2];
     Containers := [requesting scarceResource 1; requesting scarceResource 3];
     NodeName := "" |}.

Definition mixedReordered : PodSpec :=
  {| InitContainers := [requesting scarceResource 2; requesting scarceResource 1];
     Containers := [requesting scarceResource 3; requesting scarceResource 1];
     NodeName := "" |}.

(** [nodeInfo] with the list of bound pods replaced. *)
Definition withPods (nodeInfo : NodeInfo) (bound : list Pod) : NodeInfo :=
  {| node := node nodeInfo;
     pods := bound;
     requestedResource := requestedResource nodeInfo;
     allocatableResource := allocatableResource nodeInfo |}.

(** A node with eight units, to which two pods are bound. *)
Definition machine1Busy : NodeInfo :=
  nodeInfoFor "machine1" 4000 10000 scarceResource 8
    [ {| Spec := scareResourcePod1 |}; {| Spec := scareResourcePod2 |} ] 6.

End EdgeCases.

(** ** The totals of a node per resource name

    In the words of the specification: a node state gives, per resource
    name, an allocatable and a requested total; the built-in dimensions cpu,
    memory and ephemeral-storage are distinguished by name, every other name
    is looked up among the extended resources. *)

Module StatedTotals.

Definition allocatable (nodeInfo : NodeInfo) (r : ResourceName) : Z :=
  if bool_decide (r = "cpu") then MilliCPU (allocatableResource nodeInfo)
  else if bool_decide (r = "memory") then Memory (allocatableResource nodeInfo)
  else if bool_decide (r = "ephemeral-storage") then
         EphemeralStorage (allocatableResource nodeInfo)
  else index (ScalarResources (allocatableResource nodeInfo)) r.

Definition requested (nodeInfo : NodeInfo) (r : ResourceName) : Z :=
  if bool_decide (r = "cpu") then MilliCPU (requestedResource nodeInfo)
  else if bool_decide (r = "memory") then Memory (requestedResource nodeInfo)
  else if bool_decide (r = "ephemeral-storage") then
         EphemeralStorage (requestedResource nodeInfo)
  else index (ScalarResources (requestedResource nodeInfo)) r.

End StatedTotals.

Module BuiltInScenarios.

(** A pod whose only container requests one CPU. *)
Definition cpuPod : PodSpec :=
  {| InitContainers := []; Containers := [Fixtures.requesting "cpu" 1]; NodeName := "" |}.

End BuiltInScenarios.

(** * Properties *)

(** ** 64-bit arithmetic *)

Lemma wrap64_inInt64 (z : Z) : inInt64 (wrap64 z).
Proof.
  unfold inInt64, wrap64, minInt64, maxInt64.
  pose proof (Z.mod_pos_bound (z + 2 ^ 63) (2 ^ 64) ltac:(lia)). lia.
Qed.

Lemma wrap64_small (z : Z) : inInt64 z -> wrap64 z = z.
Proof.
  unfold inInt64, wrap64, minInt64, maxInt64. intros Hz.
  rewrite Z.mod_small by lia. lia.
Qed.

Lemma wrap64_add_l (a b : Z) : wrap64 (wrap64 a + b) = wrap64 (a + b).
Proof.
  unfold wrap64. f_equal.
  replace ((a + 2 ^ 63) mod 2 ^ 64 - 2 ^ 63 + b + 2 ^ 63)
    with ((a + 2 ^ 63) mod 2 ^ 64 + b) by lia.
  rewrite Zplus_mod_idemp_l. apply (f_equal (fun x => x mod 2 ^ 64)). lia.
Qed.

Lemma wrap64_add_r (a b : Z) : wrap64 (a + wrap64 b) = wrap64 (a + b).
Proof.
  rewrite (Z.add_comm a (wrap64 b)), wrap64_add_l. apply (f_equal wrap64). lia.
Qed.

Lemma add64_small (a b : Z) : inInt64 (a + b) -> add64 a b = a + b.
Proof. apply wrap64_small. Qed.

Lemma mul64_small (a b : Z) : inInt64 (a * b) -> mul64 a b = a * b.
Proof. apply wrap64_small. Qed.

Lemma div64_zero (a : Z) : div64 a 0 = Panics DivideByZero.
Proof. reflexivity. Qed.

Lemma quot_inInt64 (a b : Z) : inInt64 a -> 0 < b -> inInt64 (Z.quot a b).
Proof.
  unfold inInt64, minInt64, maxInt64. intros Ha Hb.
  destruct (Z.le_gt_cases 0 a) as [H0|H0].
  - pose proof (Z.quot_pos a b H0 Hb).
    assert (Z.quot a b <= a); [|lia].
    rewrite Z.quot_div_nonneg by lia.
    apply Z.div_le_upper_bound; nia.
  - assert (Hq : Z.quot a b = - Z.quot (- a) b) by (rewrite Z.quot_opp_l by lia; lia).
    pose proof (Z.quot_pos (- a) b ltac:(lia) Hb).
    assert (Z.quot (- a) b <= - a); [|lia].
    rewrite Z.quot_div_nonneg by lia.
    apply Z.div_le_upper_bound; nia.
Qed.

Lemma div64_pos (a b : Z) :
  inInt64 a -> 0 < b -> div64 a b = Returns (Z.quot a b).
Proof.
  intros Ha Hb. unfold div64.
  destruct (Z.eqb_spec b 0) as [->|_]; [lia|].
  by rewrite wrap64_small by (by apply quot_inInt64).
Qed.

(** ** The request loops *)

Lemma addRequests_cons (r : string) (c : Container) (cs : list Container) (acc : Z) :
  addRequests r (c :: cs) acc =
  addRequests r cs (match Requests (Resources c) !! r with
                    | Some q => add64 acc (Value q)
                    | None => acc
                    end).
Proof. reflexivity. Qed.

Lemma addRequests_wrap (r : string) (cs : list Container) (acc : Z) :
  wrap64 (addRequests r cs acc) = wrap64 (acc + Stated.sumRequested r cs).
Proof.
  revert acc. induction cs as [|c cs IH]; intros acc.
  - apply (f_equal wrap64). cbn. lia.
  - rewrite addRequests_cons, IH.
    change (Stated.sumRequested r (c :: cs))
      with (Stated.requested r c + Stated.sumRequested r cs).
    assert (Hq : Stated.requested r c
                 = match Requests (Resources c) !! r with
                   | Some q => Value q
                   | None => 0
                   end) by reflexivity.
    destruct (Requests (Resources c) !! r) as [q|].
    + unfold add64. rewrite wrap64_add_l. apply (f_equal wrap64). lia.
    + apply (f_equal wrap64). lia.
Qed.

Lemma addRequests_inInt64 (r : string) (cs : list Container) (acc : Z) :
  inInt64 acc -> inInt64 (addRequests r cs acc).
Proof.
  revert acc. induction cs as [|c cs IH]; intros acc Hacc; [done|].
  rewrite addRequests_cons. apply IH.
  destruct (Requests (Resources c) !! r); [apply wrap64_inInt64 | done].
Qed.

Lemma inInt64_0 : inInt64 0.
Proof. unfold inInt64, minInt64, maxInt64. lia. Qed.

Lemma addRequests_sum (r : string) (cs : list Container) (acc : Z) :
  inInt64 acc -> addRequests r cs acc = wrap64 (acc + Stated.sumRequested r cs).
Proof.
  intros Hacc. rewrite <- addRequests_wrap.
  symmetry. apply wrap64_small. by apply addRequests_inInt64.
Qed.

Lemma scarce_usedResource_sum (nodeInfo : NodeInfo) (r : string) :
  Scarce.usedResource nodeInfo r = wrap64 (Stated.boundRequested r (pods nodeInfo)).
Proof.
  unfold Scarce.usedResource, NodeInfoMethods.Pods.
  assert (H : forall ps acc, inInt64 acc ->
            fold_left (fun u pod => addRequests r (Containers (Spec pod)) u) ps acc
            = wrap64 (acc + Stated.boundRequested r ps)).
  { induction ps as [|p ps IH]; intros acc Hacc; simpl.
    - rewrite Z.add_0_r. symmetry. by apply wrap64_small.
    - rewrite IH by (by apply addRequests_inInt64).
      rewrite addRequests_sum by done. rewrite wrap64_add_l.
      apply (f_equal wrap64). lia. }
  rewrite H by apply inInt64_0. done.
Qed.

(** ** The gate *)

Lemma rangeAny_true {V : Type} (f : string -> V -> bool) (m : gmap string V) :
  rangeAny f m = true <-> exists k v, m !! k = Some v /\ f k v = true.
Proof.
  unfold rangeAny. rewrite existsb_exists. split.
  - intros [[k v] [Hin Hf]]. exists k, v. split; [|done].
    apply elem_of_map_to_list. by apply list_elem_of_In.
  - intros (k & v & Hkv & Hf). exists (k, v). split; [|done].
    apply list_elem_of_In. by apply elem_of_map_to_list.
Qed.

Lemma rangeAny_positive (r : string) (m : gmap string Quantity) :
  rangeAny (fun resName quantity =>
              bool_decide (resName = r) && (MilliValue quantity >? 0)) m = true
  <-> exists q, m !! r = Some q /\ 0 < MilliValue q.
Proof.
  rewrite rangeAny_true. split.
  - intros (k & v & Hkv & Hf). apply andb_prop in Hf as [Hk Hv].
    apply bool_decide_eq_true in Hk. subst k. exists v. split; [done|].
    by apply Z.gtb_lt.
  - intros (q & Hq & Hpos). exists r, q. split; [done|].
    apply andb_true_intro. split; [by apply bool_decide_eq_true | by apply Z.gtb_lt].
Qed.

Lemma containerRequestsResource_declares (r : string) (c : Container) :
  Generic.containerRequestsResource r c = true <-> Stated.declares r c.
Proof.
  unfold Generic.containerRequestsResource, Stated.declares.
  pose proof (rangeAny_positive r (Requests (Resources c))) as HR.
  pose proof (rangeAny_positive r (Limits (Resources c))) as HL.
  destruct (rangeAny _ (Requests (Resources c))).
  { split; [|done]. intros _. destruct HR as [HR _]. destruct (HR eq_refl) as (q & ? & ?).
    exists q. auto. }
  destruct (rangeAny _ (Limits (Resources c))).
  { split; [|done]. intros _. destruct HL as [HL _]. destruct (HL eq_refl) as (q & ? & ?).
    exists q. auto. }
  split; [done|]. intros (q & [Hq|Hq] & Hpos).
  - apply HR. eauto.
  - apply HL. eauto.
Qed.

Lemma existsb_elem_of {A : Type} (f : A -> bool) (l : list A) :
  existsb f l = true <-> exists x, x ∈ l /\ f x = true.
Proof.
  rewrite existsb_exists. split; intros (x & Hx & Hf); exists x; split; try done;
    by apply list_elem_of_In.
Qed.

Lemma podRequestsResource_stated (pod : Pod) (r : string) :
  Generic.podRequestsResource pod r = true <-> Stated.RequestsResource pod r.
Proof.
  unfold Generic.podRequestsResource, Stated.RequestsResource.
  pose proof (existsb_elem_of (Generic.containerRequestsResource r)
                (InitContainers (Spec pod))) as HI.
  pose proof (existsb_elem_of (Generic.containerRequestsResource r)
                (Containers (Spec pod))) as HC.
  destruct (existsb _ (InitContainers (Spec pod))).
  { split; [|done]. intros _. destruct HI as [HI _]. destruct (HI eq_refl) as (c & ? & Hc).
    exists c. split; [auto|]. by apply containerRequestsResource_declares. }
  destruct (existsb _ (Containers (Spec pod))).
  { split; [|done]. intros _. destruct HC as [HC _]. destruct (HC eq_refl) as (c & ? & Hc).
    exists c. split; [auto|]. by apply containerRequestsResource_declares. }
  split; [done|]. intros (c & [Hc|Hc] & Hd); apply containerRequestsResource_declares in Hd.
  - apply HI. eauto.
  - apply HC. eauto.
Qed.

Lemma podRequestsResource_not_stated (pod : Pod) (r : string) :
  ~ Stated.RequestsResource pod r -> Generic.podRequestsResource pod r = false.
Proof.
  intros H. destruct (Generic.podRequestsResource pod r) eqn:E; [|done].
  exfalso. apply H. by apply podRequestsResource_stated.
Qed.

(** The two source files carry the same predicate. *)
Lemma scarce_podRequestsResource (pod : Pod) (r : string) :
  Scarce.podRequestsResource pod r = Generic.podRequestsResource pod r.
Proof. reflexivity. Qed.

(** ** The guards of the map functions *)

Lemma length_eqb_0 (r : string) : r <> ""%string -> (String.length r =? 0)%nat = false.
Proof. destruct r; [done|]. intros _. reflexivity. Qed.

Lemma generic_map_resolved (r : string) (pod : Pod) (nodeInfo : NodeInfo) (n : Node) :
  r <> ""%string ->
  NodeInfoMethods.Node nodeInfo = Some n ->
  Generic.ResourceBinPackingPriorityMap {| Generic.resource := r |} pod nodeInfo
  = do score <- (if negb (Generic.podRequestsResource pod r) then Returns 0
                 else Generic.calculateScareResourceScore nodeInfo pod r) ;
    Returns ({| Host := Name n; Score := score |}, None).
Proof.
  intros Hr Hn. unfold Generic.ResourceBinPackingPriorityMap. cbn [Generic.resource].
  by rewrite length_eqb_0, Hn by done.
Qed.

Lemma scarce_map_resolved (r : string) (pod : Pod) (nodeInfo : NodeInfo) (n : Node) :
  NodeInfoMethods.Node nodeInfo = Some n ->
  Scarce.ScarceResourceBinPackingPriorityMap {| Scarce.scarceResource := r |} pod nodeInfo
  = do score <- (if negb (Scarce.podRequestsResource pod r) then Returns 0
                 else Scarce.calculateScareResourceScore nodeInfo (Containers (Spec pod)) r) ;
    Returns ({| Host := Name n; Score := score |}, None).
Proof.
  intros Hn. unfold Scarce.ScarceResourceBinPackingPriorityMap. cbn [Scarce.scarceResource].
  by rewrite Hn.
Qed.

(** C1, as stated, fails in the generic scorer when the configured resource
    name is empty, as in the scorer [ResourceBinPackingPriorityDefault]
    builds: the node of [machine1] resolves and the pod declares nothing, yet
    the call returns the error "resource not defined" instead of score 0 with
    a nil error. *)
Lemma C1_counterexample_empty_name :
  Generic.resource Generic.ResourceBinPackingPriorityDefault = ""%string
  /\ NodeInfoMethods.Node Scenarios.machine1 = Some {| Name := "machine1" |}
  /\ ~ Stated.RequestsResource (Scenarios.podOf Fixtures.noResources) ""
  /\ Generic.ResourceBinPackingPriorityMap Generic.ResourceBinPackingPriorityDefault
       (Scenarios.podOf Fixtures.noResources) Scenarios.machine1
     = Returns (emptyHostPriority, Some "resource not defined"%string)
  /\ Generic.ResourceBinPackingPriorityMap Generic.ResourceBinPackingPriorityDefault
       (Scenarios.podOf Fixtures.noResources) Scenarios.machine1
     <> Returns ({| Host := "machine1"; Score := 0 |}, None).
Proof.
  split; [reflexivity|]. split; [reflexivity|].
  split; [|split; [reflexivity|discriminate]].
  intros (c & [Hc|Hc] & _); cbn in Hc; by apply elem_of_nil in Hc.
Qed.

(** C1 (amended): for every pod and every node state whose node resolves, if
    no container of the pod, regular or init, declares a request or a limit
    for [r] that is strictly positive in milli-units, then the scarce scorer
    returns score 0 for the node with a nil error, and so does the generic
    scorer provided its resource name [r] is not empty. *)
Theorem C1_no_request_scores_zero
    (r : string) (pod : Pod) (nodeInfo : NodeInfo) (n : Node) :
  NodeInfoMethods.Node nodeInfo = Some n ->
  ~ Stated.RequestsResource pod r ->
  (r <> ""%string ->
   Generic.ResourceBinPackingPriorityMap {| Generic.resource := r |} pod nodeInfo
   = Returns ({| Host := Name n; Score := 0 |}, None))
  /\ Scarce.ScarceResourceBinPackingPriorityMap {| Scarce.scarceResource := r |} pod nodeInfo
     = Returns ({| Host := Name n; Score := 0 |}, None).
Proof.
  intros Hn Hreq. apply podRequestsResource_not_stated in Hreq. split.
  - intros Hr. rewrite (generic_map_resolved r pod nodeInfo n Hr Hn). by rewrite Hreq.
  - rewrite (scarce_map_resolved r pod nodeInfo n Hn).
    by rewrite scarce_podRequestsResource, Hreq.
Qed.

Lemma C1_no_request_scores_zero_witness :
  Generic.ResourceBinPackingPriorityMap {| Generic.resource := Fixtures.scarceResource |}
    (Scenarios.podOf Fixtures.noResources) Scenarios.machine1
  = Returns ({| Host := "machine1"; Score := 0 |}, None)
  /\ Scarce.ScarceResourceBinPackingPriorityMap
       {| Scarce.scarceResource := Fixtures.scarceResource |}
       (Scenarios.podOf Fixtures.noResources) Scenarios.machine1
     = Returns ({| Host := "machine1"; Score := 0 |}, None).
Proof.
  destruct (C1_no_request_scores_zero Fixtures.scarceResource
              (Scenarios.podOf Fixtures.noResources) Scenarios.machine1
              {| Name := "machine1" |}) as [HG HS].
  - reflexivity.
  - intros (c & [Hc|Hc] & _); cbn in Hc; by apply elem_of_nil in Hc.
  - split; [apply HG; discriminate | exact HS].
Defined.

(** C7, as stated, fails when the resource name is empty as well: the name
    is checked before the node, so the call reports "resource not defined",
    not "node not found". *)
Lemma C7_counterexample_empty_name :
  NodeInfoMethods.Node Scenarios.staleNodeInfo = None
  /\ Generic.ResourceBinPackingPriorityMap {| Generic.resource := "" |}
       (Scenarios.podOf Fixtures.scareResourcePod1) Scenarios.staleNodeInfo
     = Returns (emptyHostPriority, Some "resource not defined"%string)
  /\ Generic.ResourceBinPackingPriorityMap {| Generic.resource := "" |}
       (Scenarios.podOf Fixtures.scareResourcePod1) Scenarios.staleNodeInfo
     <> Returns (emptyHostPriority, Some "node not found"%string).
Proof. split; [reflexivity|]. split; [reflexivity|discriminate]. Qed.

(** C7 (amended): for every pod and every node state whose node cannot be
    resolved, the generic scorer fails: with the node-not-found error when
    its resource name is not empty, and with the resource-not-defined error
    when the name is empty, because the name is checked first. *)
Theorem C7_unresolved_node_fails (r : string) (pod : Pod) (nodeInfo : NodeInfo) :
  NodeInfoMethods.Node nodeInfo = None ->
  Generic.ResourceBinPackingPriorityMap {| Generic.resource := r |} pod nodeInfo
  = Returns (emptyHostPriority,
             Some (if bool_decide (r = ""%string) then "resource not defined"%string
                   else "node not found"%string)).
Proof.
  intros Hn. unfold Generic.ResourceBinPackingPriorityMap. cbn [Generic.resource].
  case_bool_decide as Hr.
  - by subst r.
  - by rewrite length_eqb_0, Hn by done.
Qed.

Lemma C7_unresolved_node_fails_witness :
  Generic.ResourceBinPackingPriorityMap {| Generic.resource := Fixtures.scarceResource |}
    (Scenarios.podOf Fixtures.scareResourcePod1) Scenarios.staleNodeInfo
  = Returns (emptyHostPriority, Some "node not found"%string).
Proof.
  apply (C7_unresolved_node_fails Fixtures.scarceResource
           (Scenarios.podOf Fixtures.scareResourcePod1) Scenarios.staleNodeInfo).
  reflexivity.
Defined.

(** ** Division by a zero capacity *)

(** C4: when the allocatable quantity the scorer reads for [r] is zero, the
    score computation of either variant divides by zero and panics; nothing
    guards the division and no fallback value or error is returned. For a
    pod that requests [r] on a node that resolves, the panic reaches the
    caller of the map function (in the generic scorer, for a non-empty
    name). *)
Theorem C4_zero_allocatable_divides_by_zero
    (r : string) (pod : Pod) (nodeInfo : NodeInfo) (n : Node) :
  index (ScalarResources (NodeInfoMethods.AllocatableResource nodeInfo)) r = 0 ->
  Generic.calculateScareResourceScore nodeInfo pod r = Panics DivideByZero
  /\ Scarce.calculateScareResourceScore nodeInfo (Containers (Spec pod)) r
     = Panics DivideByZero
  /\ (NodeInfoMethods.Node nodeInfo = Some n ->
      Stated.RequestsResource pod r ->
      (r <> ""%string ->
       Generic.ResourceBinPackingPriorityMap {| Generic.resource := r |} pod nodeInfo
       = Panics DivideByZero)
      /\ Scarce.ScarceResourceBinPackingPriorityMap {| Scarce.scarceResource := r |}
           pod nodeInfo
         = Panics DivideByZero).
Proof.
  intros Hzero.
  assert (HG : Generic.calculateScareResourceScore nodeInfo pod r = Panics DivideByZero).
  { unfold Generic.calculateScareResourceScore. by rewrite Hzero. }
  assert (HS : Scarce.calculateScareResourceScore nodeInfo (Containers (Spec pod)) r
               = Panics DivideByZero).
  { unfold Scarce.calculateScareResourceScore. by rewrite Hzero. }
  split; [done|]. split; [done|].
  intros Hn Hreq. apply podRequestsResource_stated in Hreq. split.
  - intros Hr. rewrite (generic_map_resolved r pod nodeInfo n Hr Hn). by rewrite Hreq, HG.
  - rewrite (scarce_map_resolved r pod nodeInfo n Hn).
    by rewrite scarce_podRequestsResource, Hreq, HS.
Qed.

Lemma C4_zero_allocatable_divides_by_zero_witness :
  Generic.ResourceBinPackingPriorityMap {| Generic.resource := Fixtures.scarceResource |}
    (Scenarios.podOf Fixtures.scareResourcePod1) Scenarios.plainMachine
  = Panics DivideByZero
  /\ Scarce.ScarceResourceBinPackingPriorityMap
       {| Scarce.scarceResource := Fixtures.scarceResource |}
       (Scenarios.podOf Fixtures.scareResourcePod1) Scenarios.plainMachine
     = Panics DivideByZero.
Proof.
  destruct (C4_zero_allocatable_divides_by_zero Fixtures.scarceResource
              (Scenarios.podOf Fixtures.scareResourcePod1) Scenarios.plainMachine
              {| Name := "machine3" |}) as (_ & _ & H).
  - reflexivity.
  - destruct H as [HG HS].
    + reflexivity.
    + apply podRequestsResource_stated. vm_compute. reflexivity.
    + split; [apply HG; discriminate | exact HS].
Defined.

(** ** Errors of the scarce-resource scorer *)

(** C10, as stated, fails where the division panics: the node of
    [plainMachine] resolves, but it offers none of the resource the pod
    requests, and the call does not return at all. *)
Lemma C10_counterexample_panic :
  NodeInfoMethods.Node Scenarios.plainMachine = Some {| Name := "machine3" |}
  /\ Scarce.ScarceResourceBinPackingPriorityMap
       {| Scarce.scarceResource := Fixtures.scarceResource |}
       (Scenarios.podOf Fixtures.scareResourcePod1) Scenarios.plainMachine
     = Panics DivideByZero
  /\ ~ exists hp, Scarce.ScarceResourceBinPackingPriorityMap
                    {| Scarce.scarceResource := Fixtures.scarceResource |}
                    (Scenarios.podOf Fixtures.scareResourcePod1) Scenarios.plainMachine
                  = Returns (hp, None).
Proof.
  split; [reflexivity|].
  assert (E : Scarce.ScarceResourceBinPackingPriorityMap
                {| Scarce.scarceResource := Fixtures.scarceResource |}
                (Scenarios.podOf Fixtures.scareResourcePod1) Scenarios.plainMachine
              = Panics DivideByZero) by (vm_compute; reflexivity).
  split; [exact E|]. intros [hp Hhp]. rewrite E in Hhp. discriminate Hhp.
Qed.

(** C10 (amended): for every pod and every node state whose node resolves,
    the scarce-resource scorer never returns a non-nil error; it returns a
    nil error whenever the pod does not request the resource or the
    allocatable quantity read for it is not zero; and for a pod that declares
    nothing under the configured name, the empty name included, it returns
    score 0 with a nil error, never a misconfiguration error. *)
Theorem C10_scarce_no_error_when_resolved
    (s : Scarce.ScarceResourceBinPacking) (pod : Pod) (nodeInfo : NodeInfo) (n : Node) :
  NodeInfoMethods.Node nodeInfo = Some n ->
  (forall hp e, Scarce.ScarceResourceBinPackingPriorityMap s pod nodeInfo
                <> Returns (hp, Some e))
  /\ (~ Stated.RequestsResource pod (Scarce.scarceResource s)
      \/ index (ScalarResources (NodeInfoMethods.AllocatableResource nodeInfo))
               (Scarce.scarceResource s) <> 0 ->
      exists score, Scarce.ScarceResourceBinPackingPriorityMap s pod nodeInfo
                    = Returns ({| Host := Name n; Score := score |}, None))
  /\ (~ Stated.RequestsResource pod (Scarce.scarceResource s) ->
      Scarce.ScarceResourceBinPackingPriorityMap s pod nodeInfo
      = Returns ({| Host := Name n; Score := 0 |}, None)).
Proof.
  intros Hn. destruct s as [r]. cbn [Scarce.scarceResource].
  rewrite (scarce_map_resolved r pod nodeInfo n Hn), scarce_podRequestsResource.
  split; [|split].
  - intros hp e.
    destruct (Generic.podRequestsResource pod r); cbn [negb]; [|discriminate].
    destruct (Scarce.calculateScareResourceScore _ _ _); discriminate.
  - intros [Hreq|Havail].
    + apply podRequestsResource_not_stated in Hreq. rewrite Hreq. by exists 0.
    + destruct (Generic.podRequestsResource pod r); cbn [negb]; [|by exists 0].
      unfold Scarce.calculateScareResourceScore, div64.
      destruct (Z.eqb_spec
                  (index (ScalarResources (NodeInfoMethods.AllocatableResource nodeInfo)) r)
                  0) as [E|_]; [done|].
      eexists. reflexivity.
  - intros Hreq. apply podRequestsResource_not_stated in Hreq. by rewrite Hreq.
Qed.

Lemma C10_scarce_no_error_when_resolved_witness :
  Scarce.ScarceResourceBinPackingPriorityMap {| Scarce.scarceResource := "" |}
    (Scenarios.podOf Fixtures.scareResourcePod1) Scenarios.machine1
  = Returns ({| Host := "machine1"; Score := 0 |}, None).
Proof.
  destruct (C10_scarce_no_error_when_resolved {| Scarce.scarceResource := "" |}
              (Scenarios.podOf Fixtures.scareResourcePod1) Scenarios.machine1
              {| Name := "machine1" |}) as (_ & _ & H).
  - reflexivity.
  - apply H. intros Hreq. apply podRequestsResource_stated in Hreq.
    vm_compute in Hreq. discriminate Hreq.
Defined.

(** ** The demand of a pod *)

Lemma generic_reqResource_max (pod : Pod) (r : string) :
  Generic.reqResource pod r
  = Z.max (wrap64 (Stated.sumRequested r (Containers (Spec pod))))
          (wrap64 (Stated.sumRequested r (InitContainers (Spec pod)))).
Proof.
  unfold Generic.reqResource. rewrite !addRequests_sum by apply inInt64_0.
  rewrite !Z.add_0_l.
  destruct (Z.gtb_spec (wrap64 (Stated.sumRequested r (InitContainers (Spec pod))))
                       (wrap64 (Stated.sumRequested r (Containers (Spec pod))))); lia.
Qed.

Lemma scarce_reqResource_sum (cs : list Container) (r : string) :
  Scarce.reqResource cs r = wrap64 (Stated.sumRequested r cs).
Proof.
  unfold Scarce.reqResource. rewrite addRequests_sum by apply inInt64_0.
  by rewrite Z.add_0_l.
Qed.

Lemma generic_reqResource_in_range (pod : Pod) (r : string) :
  inInt64 (Stated.sumRequested r (Containers (Spec pod))) ->
  inInt64 (Stated.sumRequested r (InitContainers (Spec pod))) ->
  Generic.reqResource pod r
  = Z.max (Stated.sumRequested r (Containers (Spec pod)))
          (Stated.sumRequested r (InitContainers (Spec pod))).
Proof.
  intros HS HT. rewrite generic_reqResource_max. by rewrite !wrap64_small.
Qed.

(** C2, as stated, fails for a pod with two init containers: they request 3
    and 4 and the regular container requests 5, so the stated demand is
    max(5, max(3, 4)) = 5, but the generic scorer adds the init requests up
    and uses 7. *)
Lemma C2_counterexample_two_init_containers :
  Stated.EffectiveDemand (Scenarios.podOf Scenarios.twoInits) Fixtures.scarceResource = 5
  /\ Generic.reqResource (Scenarios.podOf Scenarios.twoInits) Fixtures.scarceResource = 7
  /\ Generic.reqResource (Scenarios.podOf Scenarios.twoInits) Fixtures.scarceResource
     <> Stated.EffectiveDemand (Scenarios.podOf Scenarios.twoInits) Fixtures.scarceResource.
Proof.
  assert (E1 : Stated.EffectiveDemand (Scenarios.podOf Scenarios.twoInits)
                 Fixtures.scarceResource = 5) by (vm_compute; reflexivity).
  assert (E2 : Generic.reqResource (Scenarios.podOf Scenarios.twoInits)
                 Fixtures.scarceResource = 7) by (vm_compute; reflexivity).
  rewrite E1, E2. repeat split; lia.
Qed.

(** C2 (amended): in the generic scorer the demand used in the score is
    max(S, T), where S is the sum of the requested quantities of [r] over the
    regular containers and T is the sum (not the maximum) of the requested
    quantities of [r] over the init containers, both sums being within the
    64-bit range; for the pod with one init container requesting 6 and two
    regular containers requesting 1 each it is 6. *)
Theorem C2_generic_demand_is_max_of_sums (pod : Pod) (r : string) :
  inInt64 (Stated.sumRequested r (Containers (Spec pod))) ->
  inInt64 (Stated.sumRequested r (InitContainers (Spec pod))) ->
  Generic.reqResource pod r
  = Z.max (Stated.sumRequested r (Containers (Spec pod)))
          (Stated.sumRequested r (InitContainers (Spec pod))).
Proof. apply generic_reqResource_in_range. Qed.

Lemma C2_generic_demand_is_max_of_sums_witness :
  Generic.reqResource (Scenarios.podOf Scenarios.initHeavy) Fixtures.scarceResource = 6.
Proof.
  rewrite (C2_generic_demand_is_max_of_sums
             (Scenarios.podOf Scenarios.initHeavy) Fixtures.scarceResource).
  - vm_compute. reflexivity.
  - vm_compute. split; discriminate.
  - vm_compute. split; discriminate.
Defined.

(** ** The score *)

Lemma inInt64_times_MaxPriority (z : Z) : inInt64 (z * MaxPriority) -> inInt64 z.
Proof. unfold inInt64, minInt64, maxInt64, MaxPriority. lia. Qed.

(** The last line of both [calculateScareResourceScore]: within the 64-bit
    range and over a positive capacity it returns the truncated quotient. *)
Lemma utilization_quot (used demand available : Z) :
  0 < available ->
  inInt64 ((used + demand) * MaxPriority) ->
  div64 (mul64 (add64 used demand) MaxPriority) available
  = Returns (Z.quot ((used + demand) * MaxPriority) available).
Proof.
  intros Hav Hrange.
  rewrite add64_small by (by apply inInt64_times_MaxPriority).
  rewrite mul64_small by done. by apply div64_pos.
Qed.

Lemma quot_floor (used demand available : Z) :
  0 < available -> 0 <= used + demand ->
  Z.quot ((used + demand) * MaxPriority) available = Stated.score used demand available.
Proof.
  intros Hav Hnn. unfold Stated.score, MaxPriority. apply Z.quot_div_nonneg; lia.
Qed.

(** C3, as stated, fails in three places. On [machine2Huge] the requested
    total is 922337203685477581, the pod demands 2 and the capacity is 4:
    ten times their sum leaves the 64-bit range, the product wraps around
    and the generic scorer returns a negative score instead of the stated
    quotient. In the generic scorer an empty resource name is refused even
    for a pod that requests it on a node that offers it, where the stated
    score is 1. And for the name cpu the generic scorer divides by the
    extended-resource entry, not by the allocatable CPU: on [loadedMachine],
    with 4000 millicores allocatable, a pod requesting CPU makes it divide by
    zero where a score is stated. *)
Lemma C3_counterexample_overflow_empty_name_builtin :
  (Stated.RequestsResource (Scenarios.podOf Fixtures.scareResourcePod1) Fixtures.scarceResource
   /\ StatedTotals.allocatable Scenarios.machine2Huge Fixtures.scarceResource = 4
   /\ Generic.usedResource Scenarios.machine2Huge Fixtures.scarceResource
      = Scenarios.hugeUsed
   /\ Generic.reqResource (Scenarios.podOf Fixtures.scareResourcePod1)
        Fixtures.scarceResource = 2
   /\ Stated.score Scenarios.hugeUsed 2 4 = 2305843009213693957
   /\ Generic.ResourceBinPackingPriorityMap {| Generic.resource := Fixtures.scarceResource |}
        (Scenarios.podOf Fixtures.scareResourcePod1) Scenarios.machine2Huge
      = Returns ({| Host := "machine2"; Score := -2305843009213693946 |}, None))
  /\ (Stated.RequestsResource (Scenarios.podOf Scenarios.namelessPod) ""
      /\ StatedTotals.allocatable Scenarios.namelessMachine "" = 8
      /\ Stated.score 0 1 8 = 1
      /\ Generic.ResourceBinPackingPriorityMap {| Generic.resource := "" |}
           (Scenarios.podOf Scenarios.namelessPod) Scenarios.namelessMachine
         = Returns (emptyHostPriority, Some "resource not defined"%string))
  /\ (Stated.RequestsResource (Scenarios.podOf BuiltInScenarios.cpuPod) "cpu"
      /\ NodeInfoMethods.Node Scenarios.loadedMachine = Some {| Name := "machine4" |}
      /\ StatedTotals.allocatable Scenarios.loadedMachine "cpu" = 4000
      /\ Generic.ResourceBinPackingPriorityMap {| Generic.resource := "cpu" |}
           (Scenarios.podOf BuiltInScenarios.cpuPod) Scenarios.loadedMachine
         = Panics DivideByZero).
Proof.
  split; [|split].
  - split; [apply podRequestsResource_stated; vm_compute; reflexivity|].
    repeat split; vm_compute; reflexivity.
  - split; [apply podRequestsResource_stated; vm_compute; reflexivity|].
    repeat split; vm_compute; reflexivity.
  - split; [apply podRequestsResource_stated; vm_compute; reflexivity|].
    repeat split; vm_compute; reflexivity.
Qed.

Lemma allocatable_extended (nodeInfo : NodeInfo) (r : string) :
  r <> "cpu"%string -> r <> "memory"%string -> r <> "ephemeral-storage"%string ->
  StatedTotals.allocatable nodeInfo r
  = index (ScalarResources (NodeInfoMethods.AllocatableResource nodeInfo)) r.
Proof.
  intros H1 H2 H3. unfold StatedTotals.allocatable.
  by rewrite !bool_decide_eq_false_2 by done.
Qed.

(** C3 (amended): let [r] be the name of an extended resource (none of cpu,
    memory, ephemeral-storage, nor storage, which the generic scorer
    special-cases). For every pod requesting [r] and every node state whose
    node resolves and whose allocatable total for [r] is positive, if
    (used + demand) * MaxPriority stays within the 64-bit range, the scorer
    returns the quotient of (used + demand) * MaxPriority by the allocatable
    total, truncated toward zero, with MaxPriority = 10; this is
    floor((used + demand) * MaxPriority / available) when used + demand is
    not negative. In the generic map function the name must not be empty.
    The scarce-resource scorer reads the extended-resource entry as the
    allocatable total for every name. Here used and demand are the totals
    the respective scorer computes. *)
Theorem C3_score_is_truncated_quotient
    (r : string) (pod : Pod) (nodeInfo : NodeInfo) (n : Node) :
  let usedG := Generic.usedResource nodeInfo r in
  let demandG := Generic.reqResource pod r in
  let usedS := Scarce.usedResource nodeInfo r in
  let demandS := Scarce.reqResource (Containers (Spec pod)) r in
  NodeInfoMethods.Node nodeInfo = Some n ->
  Stated.RequestsResource pod r ->
  (r <> "cpu"%string -> r <> "memory"%string -> r <> "ephemeral-storage"%string ->
   r <> "storage"%string ->
   0 < StatedTotals.allocatable nodeInfo r ->
   inInt64 ((usedG + demandG) * MaxPriority) ->
   Generic.calculateScareResourceScore nodeInfo pod r
   = Returns (Z.quot ((usedG + demandG) * MaxPriority)
                (StatedTotals.allocatable nodeInfo r))
   /\ (r <> ""%string ->
       Generic.ResourceBinPackingPriorityMap {| Generic.resource := r |} pod nodeInfo
       = Returns ({| Host := Name n;
                     Score := Z.quot ((usedG + demandG) * MaxPriority)
                                (StatedTotals.allocatable nodeInfo r) |}, None))
   /\ (0 <= usedG + demandG ->
       Z.quot ((usedG + demandG) * MaxPriority) (StatedTotals.allocatable nodeInfo r)
       = Stated.score usedG demandG (StatedTotals.allocatable nodeInfo r)))
  /\ (let available :=
        index (ScalarResources (NodeInfoMethods.AllocatableResource nodeInfo)) r in
      0 < available ->
      inInt64 ((usedS + demandS) * MaxPriority) ->
      Scarce.calculateScareResourceScore nodeInfo (Containers (Spec pod)) r
      = Returns (Z.quot ((usedS + demandS) * MaxPriority) available)
      /\ Scarce.ScarceResourceBinPackingPriorityMap {| Scarce.scarceResource := r |}
           pod nodeInfo
         = Returns ({| Host := Name n;
                       Score := Z.quot ((usedS + demandS) * MaxPriority) available |}, None)
      /\ (0 <= usedS + demandS ->
          Z.quot ((usedS + demandS) * MaxPriority) available
          = Stated.score usedS demandS available)).
Proof.
  intros usedG demandG usedS demandS Hn Hreq.
  apply podRequestsResource_stated in Hreq. split.
  - intros H1 H2 H3 _ Hav Hrange.
    rewrite (allocatable_extended nodeInfo r H1 H2 H3) in *.
    assert (HG : Generic.calculateScareResourceScore nodeInfo pod r
                 = Returns (Z.quot ((usedG + demandG) * MaxPriority)
                              (index (ScalarResources
                                        (NodeInfoMethods.AllocatableResource nodeInfo)) r)))
      by (by apply utilization_quot).
    split; [exact HG|]. split.
    + intros Hr. rewrite (generic_map_resolved r pod nodeInfo n Hr Hn).
      by rewrite Hreq, HG.
    + intros Hnn. by apply quot_floor.
  - intros available Hav Hrange.
    assert (HS : Scarce.calculateScareResourceScore nodeInfo (Containers (Spec pod)) r
                 = Returns (Z.quot ((usedS + demandS) * MaxPriority) available))
      by (by apply utilization_quot).
    split; [exact HS|]. split.
    + rewrite (scarce_map_resolved r pod nodeInfo n Hn).
      by rewrite scarce_podRequestsResource, Hreq, HS.
    + intros Hnn. by apply quot_floor.
Qed.

Lemma C3_score_is_truncated_quotient_witness :
  (Generic.ResourceBinPackingPriorityMap {| Generic.resource := Fixtures.scarceResource |}
     (Scenarios.podOf Fixtures.scareResourcePod1) Scenarios.machine1
   = Returns ({| Host := "machine1"; Score := 2 |}, None)
   /\ Scarce.ScarceResourceBinPackingPriorityMap
        {| Scarce.scarceResource := Fixtures.scarceResource |}
        (Scenarios.podOf Fixtures.scareResourcePod1) Scenarios.machine1
      = Returns ({| Host := "machine1"; Score := 2 |}, None))
  /\ (Generic.ResourceBinPackingPriorityMap {| Generic.resource := Fixtures.scarceResource |}
        (Scenarios.podOf Fixtures.scareResourcePod1) Scenarios.machine2
      = Returns ({| Host := "machine2"; Score := 5 |}, None)
      /\ Scarce.ScarceResourceBinPackingPriorityMap
           {| Scarce.scarceResource := Fixtures.scarceResource |}
           (Scenarios.podOf Fixtures.scareResourcePod1) Scenarios.machine2
         = Returns ({| Host := "machine2"; Score := 5 |}, None)).
Proof.
  assert (Hreq : Stated.RequestsResource (Scenarios.podOf Fixtures.scareResourcePod1)
                   Fixtures.scarceResource)
    by (apply podRequestsResource_stated; vm_compute; reflexivity).
  split.
  - destruct (C3_score_is_truncated_quotient Fixtures.scarceResource
                (Scenarios.podOf Fixtures.scareResourcePod1) Scenarios.machine1
                {| Name := "machine1" |}) as [HG HS].
    + reflexivity.
    + exact Hreq.
    + destruct HG as (_ & HG & _);
        [discriminate | discriminate | discriminate | discriminate
         | vm_compute; reflexivity | vm_compute; split; discriminate |].
      destruct HS as (_ & HS & _);
        [vm_compute; reflexivity | vm_compute; split; discriminate|].
      split; [rewrite HG by discriminate | rewrite HS]; vm_compute; reflexivity.
  - destruct (C3_score_is_truncated_quotient Fixtures.scarceResource
                (Scenarios.podOf Fixtures.scareResourcePod1) Scenarios.machine2
                {| Name := "machine2" |}) as [HG HS].
    + reflexivity.
    + exact Hreq.
    + destruct HG as (_ & HG & _);
        [discriminate | discriminate | discriminate | discriminate
         | vm_compute; reflexivity | vm_compute; split; discriminate |].
      destruct HS as (_ & HS & _);
        [vm_compute; reflexivity | vm_compute; split; discriminate|].
      split; [rewrite HG by discriminate | rewrite HS]; vm_compute; reflexivity.
Defined.

(** C8: no upper clamp is applied. On [machine2Full] the capacity is 4 and 4
    units are already requested; a pod requesting 2 more gets the score
    (4 + 2) * 10 / 4 = 15 from both scorers, above MaxPriority = 10. *)
Theorem C8_score_exceeds_MaxPriority :
  exists (r : string) (pod : Pod) (nodeInfo : NodeInfo) (score : Z),
    Stated.RequestsResource pod r
    /\ 0 < index (ScalarResources (NodeInfoMethods.AllocatableResource nodeInfo)) r
    /\ index (ScalarResources (NodeInfoMethods.AllocatableResource nodeInfo)) r
       < Generic.usedResource nodeInfo r + Generic.reqResource pod r
    /\ index (ScalarResources (NodeInfoMethods.AllocatableResource nodeInfo)) r
       < Scarce.usedResource nodeInfo r + Scarce.reqResource (Containers (Spec pod)) r
    /\ Generic.ResourceBinPackingPriorityMap {| Generic.resource := r |} pod nodeInfo
       = Returns ({| Host := "machine2"; Score := score |}, None)
    /\ Scarce.ScarceResourceBinPackingPriorityMap {| Scarce.scarceResource := r |}
         pod nodeInfo
       = Returns ({| Host := "machine2"; Score := score |}, None)
    /\ MaxPriority < score.
Proof.
  exists Fixtures.scarceResource, (Scenarios.podOf Fixtures.scareResourcePod1),
    Scenarios.machine2Full, 15.
  split; [apply podRequestsResource_stated; vm_compute; reflexivity|].
  repeat split; vm_compute; reflexivity.
Qed.

(** C9, as stated, fails when the product leaves the 64-bit range: with the
    demand 2 and the capacity 4 fixed, the requested total 0 of [machine2]
    gives the score 5, and the larger requested total 922337203685477581 of
    [machine2Huge] gives a negative score. *)
Lemma C9_counterexample_overflow :
  Generic.usedResource Scenarios.machine2 Fixtures.scarceResource = 0
  /\ Generic.usedResource Scenarios.machine2Huge Fixtures.scarceResource
     = Scenarios.hugeUsed
  /\ 0 <= Scenarios.hugeUsed
  /\ NodeInfoMethods.AllocatableResource Scenarios.machine2
     = NodeInfoMethods.AllocatableResource Scenarios.machine2Huge
  /\ Generic.calculateScareResourceScore Scenarios.machine2
       (Scenarios.podOf Fixtures.scareResourcePod1) Fixtures.scarceResource
     = Returns 5
  /\ Generic.calculateScareResourceScore Scenarios.machine2Huge
       (Scenarios.podOf Fixtures.scareResourcePod1) Fixtures.scarceResource
     = Returns (-2305843009213693946)
  /\ -2305843009213693946 < 5.
Proof. repeat split; try (vm_compute; reflexivity). vm_compute. discriminate. Qed.

(** C9 (amended): with the pod, and so the demand, and the positive
    allocatable quantity fixed, for two node states whose already-used totals
    satisfy used1 <= used2 and for which (used + demand) * MaxPriority stays
    within the 64-bit range, both score computations return and the score
    from used1 is at most the score from used2, in either scorer. *)
Theorem C9_score_monotone_in_used
    (r : string) (pod : Pod) (nodeInfo1 nodeInfo2 : NodeInfo) (available : Z) :
  index (ScalarResources (NodeInfoMethods.AllocatableResource nodeInfo1)) r = available ->
  index (ScalarResources (NodeInfoMethods.AllocatableResource nodeInfo2)) r = available ->
  0 < available ->
  (Generic.usedResource nodeInfo1 r <= Generic.usedResource nodeInfo2 r ->
   inInt64 ((Generic.usedResource nodeInfo1 r + Generic.reqResource pod r) * MaxPriority) ->
   inInt64 ((Generic.usedResource nodeInfo2 r + Generic.reqResource pod r) * MaxPriority) ->
   exists score1 score2,
     Generic.calculateScareResourceScore nodeInfo1 pod r = Returns score1
     /\ Generic.calculateScareResourceScore nodeInfo2 pod r = Returns score2
     /\ score1 <= score2)
  /\ (Scarce.usedResource nodeInfo1 r <= Scarce.usedResource nodeInfo2 r ->
      inInt64 ((Scarce.usedResource nodeInfo1 r
                + Scarce.reqResource (Containers (Spec pod)) r) * MaxPriority) ->
      inInt64 ((Scarce.usedResource nodeInfo2 r
                + Scarce.reqResource (Containers (Spec pod)) r) * MaxPriority) ->
      exists score1 score2,
        Scarce.calculateScareResourceScore nodeInfo1 (Containers (Spec pod)) r
        = Returns score1
        /\ Scarce.calculateScareResourceScore nodeInfo2 (Containers (Spec pod)) r
           = Returns score2
        /\ score1 <= score2).
Proof.
  intros Hav1 Hav2 Hav. split; intros Hle H1 H2.
  - eexists _, _. unfold Generic.calculateScareResourceScore. rewrite Hav1, Hav2.
    split; [by apply utilization_quot|]. split; [by apply utilization_quot|].
    apply Z.quot_le_mono; [done|]. unfold MaxPriority. lia.
  - eexists _, _. unfold Scarce.calculateScareResourceScore. rewrite Hav1, Hav2.
    split; [by apply utilization_quot|]. split; [by apply utilization_quot|].
    apply Z.quot_le_mono; [done|]. unfold MaxPriority. lia.
Qed.

Lemma C9_score_monotone_in_used_witness :
  (exists score1 score2,
     Generic.calculateScareResourceScore Scenarios.machine2
       (Scenarios.podOf Fixtures.scareResourcePod1) Fixtures.scarceResource
     = Returns score1
     /\ Generic.calculateScareResourceScore Scenarios.machine2Busy
          (Scenarios.podOf Fixtures.scareResourcePod1) Fixtures.scarceResource
        = Returns score2
     /\ score1 <= score2)
  /\ (exists score1 score2,
        Scarce.calculateScareResourceScore Scenarios.machine2
          (Containers (Spec (Scenarios.podOf Fixtures.scareResourcePod1)))
          Fixtures.scarceResource
        = Returns score1
        /\ Scarce.calculateScareResourceScore Scenarios.machine2Busy
             (Containers (Spec (Scenarios.podOf Fixtures.scareResourcePod1)))
             Fixtures.scarceResource
           = Returns score2
        /\ score1 <= score2).
Proof.
  destruct (C9_score_monotone_in_used Fixtures.scarceResource
              (Scenarios.podOf Fixtures.scareResourcePod1)
              Scenarios.machine2 Scenarios.machine2Busy 4) as [HG HS].
  - vm_compute. reflexivity.
  - vm_compute. reflexivity.
  - lia.
  - split.
    + apply HG; vm_compute; try discriminate; split; discriminate.
    + apply HS; vm_compute; try discriminate; split; discriminate.
Defined.

(** ** The two scorers compared *)





(** ** The already-used total of the generic scorer *)

(** C6 fails on the code for the memory dimension: the branch that reads the
    requested-memory total is taken for the name "storage", so for "memory"
    the generic scorer falls through to the extended-resource lookup. On
    [loadedMachine], with 4096 bytes of memory requested, it takes 0 as the
    used total. CPU and ephemeral storage are read through their accessors. *)
Theorem C6_memory_falls_through_to_scalar_lookup :
  (forall nodeInfo : NodeInfo,
     Generic.usedResource nodeInfo "cpu"
     = MilliCPU (NodeInfoMethods.RequestedResource nodeInfo)
     /\ Generic.usedResource nodeInfo "ephemeral-storage"
        = EphemeralStorage (NodeInfoMethods.RequestedResource nodeInfo)
     /\ Generic.usedResource nodeInfo "storage"
        = Memory (NodeInfoMethods.RequestedResource nodeInfo)
     /\ Generic.usedResource nodeInfo "memory"
        = index (ScalarResources (NodeInfoMethods.RequestedResource nodeInfo)) "memory")
  /\ Memory (NodeInfoMethods.RequestedResource Scenarios.loadedMachine) = 4096
  /\ Generic.usedResource Scenarios.loadedMachine "memory" = 0.
Proof.
  split; [|split; vm_compute; reflexivity].
  intros nodeInfo. unfold Generic.usedResource. repeat split.
Qed.

(** ** The test table

    [TestScarceResourceBinPacking] expects these scores from the
    scarce-resource scorer; the generic scorer bound to the same name agrees
    on them. *)
Lemma TestScarceResourceBinPacking_expected :
  let scarce := Scarce.NewScarceResourceBinPacking Fixtures.scarceResource in
  let generic := Generic.NewResourceBinPacking Fixtures.scarceResource in
  let expect (name : string) (score : Z) :=
    Returns ({| Host := name; Score := score |}, @None error) in
  Forall (fun '(pod, nodeInfo, expected) =>
            scarce pod nodeInfo = expected /\ generic pod nodeInfo = expected)
    [ (Scenarios.podOf Fixtures.noResources, Scenarios.machine1, expect "machine1" 0);
      (Scenarios.podOf Fixtures.noResources, Scenarios.machine2, expect "machine2" 0);
      (Scenarios.podOf Fixtures.scareResourcePod1, Scenarios.machine1, expect "machine1" 2);
      (Scenarios.podOf Fixtures.scareResourcePod1, Scenarios.machine2, expect "machine2" 5);
      (Scenarios.podOf Fixtures.scareResourcePod1, Scenarios.machine2Busy,
       expect "machine2" 10);
      (Scenarios.podOf Fixtures.scareResourcePod2, Scenarios.machine1, expect "machine1" 5);
      (Scenarios.podOf Fixtures.scareResourcePod2, Scenarios.machine2,
       expect "machine2" 10) ].
Proof. cbv zeta. repeat constructor; vm_compute; reflexivity. Qed.

(** * Further properties of the scorers *)

(** ** The gate *)

(** X1: [podRequestsResource], in either file, answers true exactly when
    some container of the pod, init or regular, has under the key [r] of its
    requests or of its limits a quantity whose milli-value is positive: the
    loops over the maps amount to a lookup of the key. *)
Theorem X1_gate_is_key_lookup (pod : Pod) (r : string) :
  (Generic.podRequestsResource pod r = true
   <-> exists c q,
         (c ∈ InitContainers (Spec pod) \/ c ∈ Containers (Spec pod))
         /\ (Requests (Resources c) !! r = Some q \/ Limits (Resources c) !! r = Some q)
         /\ 0 < MilliValue q)
  /\ Scarce.podRequestsResource pod r = Generic.podRequestsResource pod r.
Proof.
  split; [|reflexivity]. rewrite podRequestsResource_stated.
  unfold Stated.RequestsResource, Stated.declares. split.
  - intros (c & Hc & q & Hq & Hpos). by exists c, q.
  - intros (c & q & Hc & Hq & Hpos). exists c. split; [done|]. by exists q.
Qed.

(** ** Outcomes of the map functions *)

(** X2: the generic map function panics exactly when its resource name is
    not empty, the node resolves, the pod passes the gate and the allocatable
    quantity read for the name is zero; the scarce-resource one exactly when
    the node resolves, the pod passes the gate and that quantity is zero. *)
Theorem X2_panic_exactly_on_zero_capacity
    (r : string) (pod : Pod) (nodeInfo : NodeInfo) (p : runtimePanic) :
  (Generic.ResourceBinPackingPriorityMap {| Generic.resource := r |} pod nodeInfo = Panics p
   <-> r <> ""%string
       /\ NodeInfoMethods.Node nodeInfo <> None
       /\ Generic.podRequestsResource pod r = true
       /\ index (ScalarResources (NodeInfoMethods.AllocatableResource nodeInfo)) r = 0)
  /\ (Scarce.ScarceResourceBinPackingPriorityMap {| Scarce.scarceResource := r |}
        pod nodeInfo = Panics p
      <-> NodeInfoMethods.Node nodeInfo <> None
          /\ Scarce.podRequestsResource pod r = true
          /\ index (ScalarResources (NodeInfoMethods.AllocatableResource nodeInfo)) r = 0).
Proof.
  destruct p.
  assert (HG : forall n,
    (do score <- (if negb (Generic.podRequestsResource pod r) then Returns 0
                  else Generic.calculateScareResourceScore nodeInfo pod r) ;
     Returns ({| Host := Name n; Score := score |}, @None error)) = Panics DivideByZero
    <-> Generic.podRequestsResource pod r = true
        /\ index (ScalarResources (NodeInfoMethods.AllocatableResource nodeInfo)) r = 0).
  { intros n. unfold Generic.calculateScareResourceScore, div64.
    destruct (Generic.podRequestsResource pod r); cbn [negb bind].
    - destruct (Z.eqb_spec
                  (index (ScalarResources (NodeInfoMethods.AllocatableResource nodeInfo)) r)
                  0) as [E|E]; cbn [bind]; split; try done.
      intros [_ ?]. done.
    - split; [done|]. intros [? _]. done. }
  split.
  - unfold Generic.ResourceBinPackingPriorityMap. cbn [Generic.resource].
    destruct r as [|a r'].
    + cbn. split; [done|]. intros [? _]. done.
    + cbn [String.length Nat.eqb].
      destruct (NodeInfoMethods.Node nodeInfo) as [n|].
      * rewrite HG. split; [intros [? ?]; done | intros (_ & _ & ? & ?); done].
      * split; [done|]. intros (_ & ? & _). done.
  - unfold Scarce.ScarceResourceBinPackingPriorityMap. cbn [Scarce.scarceResource].
    change (Scarce.podRequestsResource pod r) with (Generic.podRequestsResource pod r).
    destruct (NodeInfoMethods.Node nodeInfo) as [n|].
    + unfold Scarce.calculateScareResourceScore.
      specialize (HG n). unfold Generic.calculateScareResourceScore, div64 in HG.
      unfold div64.
      destruct (Generic.podRequestsResource pod r); cbn [negb bind].
      * destruct (Z.eqb_spec
                    (index (ScalarResources (NodeInfoMethods.AllocatableResource nodeInfo)) r)
                    0) as [E|E]; cbn [bind]; split; try done.
        intros (_ & _ & ?). done.
      * split; [done|]. intros (_ & ? & _). done.
    + split; [done|]. intros (? & _). done.
Qed.

(** X3: the generic map function returns a non-nil error exactly in two
    cases, each with the zero [HostPriority]: "resource not defined" when its
    resource name is empty, and "node not found" when the name is not empty
    and the node does not resolve. The scarce-resource map function returns a
    non-nil error exactly when the node does not resolve, and it is "node not
    found" with the zero [HostPriority]. *)
Theorem X3_errors_of_the_map_functions
    (r : string) (pod : Pod) (nodeInfo : NodeInfo) (hp : HostPriority) (e : error) :
  (Generic.ResourceBinPackingPriorityMap {| Generic.resource := r |} pod nodeInfo
   = Returns (hp, Some e)
   <-> hp = emptyHostPriority
       /\ ((r = ""%string /\ e = "resource not defined"%string)
           \/ (r <> ""%string /\ NodeInfoMethods.Node nodeInfo = None
               /\ e = "node not found"%string)))
  /\ (Scarce.ScarceResourceBinPackingPriorityMap {| Scarce.scarceResource := r |}
        pod nodeInfo
      = Returns (hp, Some e)
      <-> hp = emptyHostPriority
          /\ NodeInfoMethods.Node nodeInfo = None /\ e = "node not found"%string).
Proof.
  assert (Hbody : forall (m : outcome Z) (n : Node),
            (do score <- m ; Returns ({| Host := Name n; Score := score |}, @None error))
            <> Returns (hp, Some e)).
  { intros [score|q] n; cbn [bind]; discriminate. }
  split.
  - unfold Generic.ResourceBinPackingPriorityMap. cbn [Generic.resource].
    destruct r as [|a r'].
    + cbn. split.
      * intros [= <- <-]. split; [done|]. by left.
      * intros [-> [[_ ->]|[? _]]]; done.
    + cbn [String.length Nat.eqb].
      destruct (NodeInfoMethods.Node nodeInfo) as [n|].
      * split; [intros H; by apply Hbody in H|].
        intros [_ [[? _]|(_ & ? & _)]]; done.
      * split.
        -- intros [= <- <-]. split; [done|]. by right.
        -- intros [-> [[? _]|(_ & _ & ->)]]; done.
  - unfold Scarce.ScarceResourceBinPackingPriorityMap. cbn [Scarce.scarceResource].
    destruct (NodeInfoMethods.Node nodeInfo) as [n|].
    + split; [intros H; by apply Hbody in H|]. intros (_ & ? & _). done.
    + split; [by intros [= <- <-] | by intros (-> & _ & ->)].
Qed.

(** X4: whenever either map function returns a nil error, the node resolves
    and the returned [HostPriority] carries that node's name. *)
Theorem X4_success_names_the_node
    (r : string) (pod : Pod) (nodeInfo : NodeInfo) (hp : HostPriority) :
  (Generic.ResourceBinPackingPriorityMap {| Generic.resource := r |} pod nodeInfo
   = Returns (hp, None)
   -> exists n, NodeInfoMethods.Node nodeInfo = Some n /\ Host hp = Name n)
  /\ (Scarce.ScarceResourceBinPackingPriorityMap {| Scarce.scarceResource := r |}
        pod nodeInfo
      = Returns (hp, None)
      -> exists n, NodeInfoMethods.Node nodeInfo = Some n /\ Host hp = Name n).
Proof.
  assert (Hbody : forall (m : outcome Z) (n : Node),
            (do score <- m ; Returns ({| Host := Name n; Score := score |}, @None error))
            = Returns (hp, None) -> Host hp = Name n).
  { intros [score|q] n; cbn [bind]; [|discriminate]. by intros [= <-]. }
  split.
  - unfold Generic.ResourceBinPackingPriorityMap. cbn [Generic.resource].
    destruct (String.length r =? 0)%nat; [discriminate|].
    destruct (NodeInfoMethods.Node nodeInfo) as [n|]; [|discriminate].
    intros H. exists n. split; [done|]. by apply Hbody in H.
  - unfold Scarce.ScarceResourceBinPackingPriorityMap. cbn [Scarce.scarceResource].
    destruct (NodeInfoMethods.Node nodeInfo) as [n|]; [|discriminate].
    intros H. exists n. split; [done|]. by apply Hbody in H.
Qed.

Lemma X4_success_names_the_node_witness :
  (exists n, NodeInfoMethods.Node Scenarios.machine1 = Some n
             /\ Host {| Host := "machine1"; Score := 2 |} = Name n)
  /\ (exists n, NodeInfoMethods.Node Scenarios.machine2 = Some n
                /\ Host {| Host := "machine2"; Score := 5 |} = Name n).
Proof.
  split.
  - apply (proj1 (X4_success_names_the_node Fixtures.scarceResource
                    (Scenarios.podOf Fixtures.scareResourcePod1) Scenarios.machine1
                    {| Host := "machine1"; Score := 2 |})).
    vm_compute. reflexivity.
  - apply (proj2 (X4_success_names_the_node Fixtures.scarceResource
                    (Scenarios.podOf Fixtures.scareResourcePod1) Scenarios.machine2
                    {| Host := "machine2"; Score := 5 |})).
    vm_compute. reflexivity.
Defined.

(** ** Pods that pass the gate without demand *)

Lemma addRequests_none (r : string) (cs : list Container) (acc : Z) :
  Forall (fun c => Requests (Resources c) !! r = None) cs ->
  addRequests r cs acc = acc.
Proof.
  induction 1 as [|c cs Hc _ IH]; [done|].
  rewrite addRequests_cons, Hc. exact IH.
Qed.

Lemma utilization_of_used (used available : Z) :
  0 < available ->
  inInt64 (used * MaxPriority) ->
  div64 (mul64 (add64 used 0) MaxPriority) available
  = Returns (Z.quot (used * MaxPriority) available).
Proof.
  intros Hav Hrange.
  rewrite (utilization_quot used 0 available Hav) by (by rewrite Z.add_0_r).
  by rewrite Z.add_0_r.
Qed.

(** X5: in the generic scorer limits open the gate but never add to the
    demand. For a pod none of whose containers, init or regular, has a
    request entry for [r], the demand is 0; if it passes the gate all the
    same, on a node that resolves, with a non-empty name, a positive
    capacity and used * MaxPriority within the 64-bit range, its score is the
    truncated quotient of used * MaxPriority by the capacity. *)
Theorem X5_generic_limits_add_no_demand
    (r : string) (pod : Pod) (nodeInfo : NodeInfo) (n : Node) :
  Forall (fun c => Requests (Resources c) !! r = None) (InitContainers (Spec pod)) ->
  Forall (fun c => Requests (Resources c) !! r = None) (Containers (Spec pod)) ->
  Generic.reqResource pod r = 0
  /\ (r <> ""%string ->
      NodeInfoMethods.Node nodeInfo = Some n ->
      Generic.podRequestsResource pod r = true ->
      0 < index (ScalarResources (NodeInfoMethods.AllocatableResource nodeInfo)) r ->
      inInt64 (Generic.usedResource nodeInfo r * MaxPriority) ->
      Generic.ResourceBinPackingPriorityMap {| Generic.resource := r |} pod nodeInfo
      = Returns ({| Host := Name n;
                    Score := Z.quot (Generic.usedResource nodeInfo r * MaxPriority)
                               (index (ScalarResources
                                         (NodeInfoMethods.AllocatableResource nodeInfo)) r) |},
                 None)).
Proof.
  intros HI HC.
  assert (Hreq : Generic.reqResource pod r = 0).
  { unfold Generic.reqResource. by rewrite !addRequests_none by done. }
  split; [exact Hreq|]. intros Hr Hn Hgate Hav Hrange.
  rewrite (generic_map_resolved r pod nodeInfo n Hr Hn), Hgate. cbn [negb].
  unfold Generic.calculateScareResourceScore. rewrite Hreq.
  by rewrite utilization_of_used.
Qed.

Lemma X5_generic_limits_add_no_demand_witness :
  Generic.reqResource (Scenarios.podOf EdgeCases.limitsOnly) Fixtures.scarceResource = 0
  /\ Generic.ResourceBinPackingPriorityMap {| Generic.resource := Fixtures.scarceResource |}
       (Scenarios.podOf EdgeCases.limitsOnly) Scenarios.machine2Busy
     = Returns ({| Host := "machine2"; Score := 5 |}, None).
Proof.
  destruct (X5_generic_limits_add_no_demand Fixtures.scarceResource
              (Scenarios.podOf EdgeCases.limitsOnly) Scenarios.machine2Busy
              {| Name := "machine2" |}) as [Hreq Hmap].
  - constructor.
  - repeat constructor.
  - split; [exact Hreq|]. rewrite Hmap.
    + vm_compute. reflexivity.
    + discriminate.
    + reflexivity.
    + vm_compute. reflexivity.
    + vm_compute. reflexivity.
    + vm_compute. split; discriminate.
Defined.

(** X6: in the scarce-resource scorer the init containers open the gate but
    never add to the demand. For a pod none of whose regular containers has a
    request entry for [r], the demand is 0; if it passes the gate all the
    same (through an init container or a limit), on a node that resolves,
    with a positive capacity and used * MaxPriority within the 64-bit range,
    its score is the truncated quotient of used * MaxPriority by the
    capacity. *)
Theorem X6_scarce_init_containers_add_no_demand
    (r : string) (pod : Pod) (nodeInfo : NodeInfo) (n : Node) :
  Forall (fun c => Requests (Resources c) !! r = None) (Containers (Spec pod)) ->
  Scarce.reqResource (Containers (Spec pod)) r = 0
  /\ (NodeInfoMethods.Node nodeInfo = Some n ->
      Scarce.podRequestsResource pod r = true ->
      0 < index (ScalarResources (NodeInfoMethods.AllocatableResource nodeInfo)) r ->
      inInt64 (Scarce.usedResource nodeInfo r * MaxPriority) ->
      Scarce.ScarceResourceBinPackingPriorityMap {| Scarce.scarceResource := r |}
        pod nodeInfo
      = Returns ({| Host := Name n;
                    Score := Z.quot (Scarce.usedResource nodeInfo r * MaxPriority)
                               (index (ScalarResources
                                         (NodeInfoMethods.AllocatableResource nodeInfo)) r) |},
                 None)).
Proof.
  intros HC.
  assert (Hreq : Scarce.reqResource (Containers (Spec pod)) r = 0).
  { unfold Scarce.reqResource. by rewrite addRequests_none by done. }
  split; [exact Hreq|]. intros Hn Hgate Hav Hrange.
  rewrite (scarce_map_resolved r pod nodeInfo n Hn), Hgate. cbn [negb].
  unfold Scarce.calculateScareResourceScore. rewrite Hreq.
  by rewrite utilization_of_used.
Qed.

Lemma X6_scarce_init_containers_add_no_demand_witness :
  Scarce.reqResource (Containers (Spec (Scenarios.podOf EdgeCases.initOnly)))
    Fixtures.scarceResource = 0
  /\ Scarce.ScarceResourceBinPackingPriorityMap
       {| Scarce.scarceResource := Fixtures.scarceResource |}
       (Scenarios.podOf EdgeCases.initOnly) Scenarios.machine2Busy
     = Returns ({| Host := "machine2"; Score := 5 |}, None).
Proof.
  destruct (X6_scarce_init_containers_add_no_demand Fixtures.scarceResource
              (Scenarios.podOf EdgeCases.initOnly) Scenarios.machine2Busy
              {| Name := "machine2" |}) as [Hreq Hmap].
  - constructor.
  - split; [exact Hreq|]. rewrite Hmap.
    + vm_compute. reflexivity.
    + reflexivity.
    + vm_compute. reflexivity.
    + vm_compute. reflexivity.
    + vm_compute. split; discriminate.
Defined.

(** ** The range of the score *)

Lemma utilization_bounds (used demand available : Z) :
  0 < available ->
  0 <= used + demand <= available ->
  inInt64 (available * MaxPriority) ->
  exists score,
    div64 (mul64 (add64 used demand) MaxPriority) available = Returns score
    /\ 0 <= score <= MaxPriority
    /\ (score = MaxPriority <-> used + demand = available).
Proof.
  intros Hav Hud Hrange.
  assert (Hnum : inInt64 ((used + demand) * MaxPriority)).
  { unfold inInt64, minInt64, maxInt64, MaxPriority in *. lia. }
  rewrite (utilization_quot used demand available Hav Hnum).
  eexists. split; [reflexivity|].
  unfold MaxPriority in *. rewrite Z.quot_div_nonneg by lia.
  assert (Hlo : 0 <= (used + demand) * 10 / available) by (apply Z.div_pos; lia).
  assert (Hhi : (used + demand) * 10 / available <= 10)
    by (apply Z.div_le_upper_bound; lia).
  split; [lia|]. split.
  - intros Heq. destruct (Z.eq_dec (used + demand) available) as [|Hne]; [done|].
    assert ((used + demand) * 10 / available < 10)
      by (apply Z.div_lt_upper_bound; lia).
    lia.
  - intros ->. rewrite Z.mul_comm. apply Z.div_mul. lia.
Qed.

(** X7: without over-commitment the score stays between 0 and MaxPriority.
    If the capacity is positive, ten times it fits the 64-bit range and
    0 <= used + demand <= capacity, the score computation of either scorer
    returns a score in [0, MaxPriority], and the score is MaxPriority exactly
    when used + demand equals the capacity. *)
Theorem X7_score_between_0_and_MaxPriority
    (r : string) (pod : Pod) (nodeInfo : NodeInfo) :
  let available := index (ScalarResources (NodeInfoMethods.AllocatableResource nodeInfo)) r in
  0 < available ->
  inInt64 (available * MaxPriority) ->
  (0 <= Generic.usedResource nodeInfo r + Generic.reqResource pod r <= available ->
   exists score,
     Generic.calculateScareResourceScore nodeInfo pod r = Returns score
     /\ 0 <= score <= MaxPriority
     /\ (score = MaxPriority
         <-> Generic.usedResource nodeInfo r + Generic.reqResource pod r = available))
  /\ (0 <= Scarce.usedResource nodeInfo r + Scarce.reqResource (Containers (Spec pod)) r
      <= available ->
      exists score,
        Scarce.calculateScareResourceScore nodeInfo (Containers (Spec pod)) r
        = Returns score
        /\ 0 <= score <= MaxPriority
        /\ (score = MaxPriority
            <-> Scarce.usedResource nodeInfo r
                + Scarce.reqResource (Containers (Spec pod)) r = available)).
Proof.
  intros available Hav Hrange. split; intros Hud.
  - by apply utilization_bounds.
  - by apply utilization_bounds.
Qed.

Lemma X7_score_between_0_and_MaxPriority_witness :
  (exists score,
     Generic.calculateScareResourceScore Scenarios.machine2Busy
       (Scenarios.podOf Fixtures.scareResourcePod1) Fixtures.scarceResource
     = Returns score
     /\ 0 <= score <= MaxPriority)
  /\ (exists score,
        Scarce.calculateScareResourceScore Scenarios.machine2Busy
          (Containers (Spec (Scenarios.podOf Fixtures.scareResourcePod1)))
          Fixtures.scarceResource
        = Returns score
        /\ 0 <= score <= MaxPriority).
Proof.
  destruct (X7_score_between_0_and_MaxPriority Fixtures.scarceResource
              (Scenarios.podOf Fixtures.scareResourcePod1) Scenarios.machine2Busy)
    as [HG HS].
  - vm_compute. reflexivity.
  - vm_compute. split; discriminate.
  - split.
    + destruct HG as (score & E & Hb & _); [vm_compute; split; discriminate|].
      exists score. by split.
    + destruct HS as (score & E & Hb & _); [vm_compute; split; discriminate|].
      exists score. by split.
Defined.

(** ** The order of containers and of bound pods *)

Lemma sumRequested_perm (r : string) (cs cs' : list Container) :
  cs ≡ₚ cs' -> Stated.sumRequested r cs = Stated.sumRequested r cs'.
Proof.
  unfold Stated.sumRequested.
  induction 1 as [|c cs cs' _ IH|c c' cs|cs1 cs2 cs3 _ IH1 _ IH2]; cbn [foldr].
  - done.
  - by rewrite IH.
  - lia.
  - by rewrite IH1.
Qed.

Lemma boundRequested_perm (r : string) (ps ps' : list Pod) :
  ps ≡ₚ ps' -> Stated.boundRequested r ps = Stated.boundRequested r ps'.
Proof.
  unfold Stated.boundRequested.
  induction 1 as [|p ps ps' _ IH|p p' ps|ps1 ps2 ps3 _ IH1 _ IH2]; cbn [foldr].
  - done.
  - by rewrite IH.
  - lia.
  - by rewrite IH1.
Qed.

Lemma existsb_perm {A : Type} (f : A -> bool) (l l' : list A) :
  l ≡ₚ l' -> existsb f l = existsb f l'.
Proof.
  induction 1 as [|x l l' _ IH|x y l|l1 l2 l3 _ IH1 _ IH2]; cbn.
  - done.
  - by rewrite IH.
  - by destruct (f x), (f y).
  - by rewrite IH1.
Qed.

Lemma addRequests_perm (r : string) (cs cs' : list Container) :
  cs ≡ₚ cs' -> addRequests r cs 0 = addRequests r cs' 0.
Proof.
  intros Hp. rewrite !addRequests_sum by apply inInt64_0.
  by rewrite (sumRequested_perm r cs cs' Hp).
Qed.

(** X8: the order of a pod's containers does not matter. Two pods whose
    regular containers are a permutation of each other, and likewise their
    init containers, get the same outcome from either map function on every
    node state. *)
Theorem X8_container_order_is_irrelevant
    (r : string) (pod pod' : Pod) (nodeInfo : NodeInfo) :
  Containers (Spec pod) ≡ₚ Containers (Spec pod') ->
  InitContainers (Spec pod) ≡ₚ InitContainers (Spec pod') ->
  Generic.ResourceBinPackingPriorityMap {| Generic.resource := r |} pod nodeInfo
  = Generic.ResourceBinPackingPriorityMap {| Generic.resource := r |} pod' nodeInfo
  /\ Scarce.ScarceResourceBinPackingPriorityMap {| Scarce.scarceResource := r |}
       pod nodeInfo
     = Scarce.ScarceResourceBinPackingPriorityMap {| Scarce.scarceResource := r |}
         pod' nodeInfo.
Proof.
  intros HC HI.
  assert (Hgate : Generic.podRequestsResource pod r = Generic.podRequestsResource pod' r).
  { unfold Generic.podRequestsResource.
    by rewrite (existsb_perm _ _ _ HC), (existsb_perm _ _ _ HI). }
  assert (HG : Generic.calculateScareResourceScore nodeInfo pod r
               = Generic.calculateScareResourceScore nodeInfo pod' r).
  { unfold Generic.calculateScareResourceScore, Generic.reqResource.
    by rewrite (addRequests_perm r _ _ HC), (addRequests_perm r _ _ HI). }
  assert (HS : Scarce.calculateScareResourceScore nodeInfo (Containers (Spec pod)) r
               = Scarce.calculateScareResourceScore nodeInfo (Containers (Spec pod')) r).
  { unfold Scarce.calculateScareResourceScore, Scarce.reqResource.
    by rewrite (addRequests_perm r _ _ HC). }
  split.
  - unfold Generic.ResourceBinPackingPriorityMap. cbn [Generic.resource].
    by rewrite Hgate, HG.
  - unfold Scarce.ScarceResourceBinPackingPriorityMap. cbn [Scarce.scarceResource].
    change (Scarce.podRequestsResource pod r) with (Generic.podRequestsResource pod r).
    change (Scarce.podRequestsResource pod' r) with (Generic.podRequestsResource pod' r).
    by rewrite Hgate, HS.
Qed.

Lemma X8_container_order_is_irrelevant_witness :
  Generic.ResourceBinPackingPriorityMap {| Generic.resource := Fixtures.scarceResource |}
    (Scenarios.podOf EdgeCases.mixed) Scenarios.machine1
  = Generic.ResourceBinPackingPriorityMap {| Generic.resource := Fixtures.scarceResource |}
      (Scenarios.podOf EdgeCases.mixedReordered) Scenarios.machine1
  /\ Scarce.ScarceResourceBinPackingPriorityMap
       {| Scarce.scarceResource := Fixtures.scarceResource |}
       (Scenarios.podOf EdgeCases.mixed) Scenarios.machine1
     = Scarce.ScarceResourceBinPackingPriorityMap
         {| Scarce.scarceResource := Fixtures.scarceResource |}
         (Scenarios.podOf EdgeCases.mixedReordered) Scenarios.machine1.
Proof.
  apply (X8_container_order_is_irrelevant Fixtures.scarceResource
           (Scenarios.podOf EdgeCases.mixed) (Scenarios.podOf EdgeCases.mixedReordered)
           Scenarios.machine1).
  - apply perm_swap.
  - apply perm_swap.
Defined.

(** X9: the order of the bound pods does not matter to the scarce-resource
    scorer: on a node state whose bound pods are permuted it returns the same
    outcome. The generic scorer does not read the bound pods at all: its
    outcome is the same whatever pods the node state lists. *)
Theorem X9_bound_pod_order_is_irrelevant
    (r : string) (pod : Pod) (nodeInfo : NodeInfo) (bound' : list Pod) :
  (NodeInfoMethods.Pods nodeInfo ≡ₚ bound' ->
   Scarce.ScarceResourceBinPackingPriorityMap {| Scarce.scarceResource := r |}
     pod (EdgeCases.withPods nodeInfo bound')
   = Scarce.ScarceResourceBinPackingPriorityMap {| Scarce.scarceResource := r |}
       pod nodeInfo)
  /\ Generic.ResourceBinPackingPriorityMap {| Generic.resource := r |}
       pod (EdgeCases.withPods nodeInfo bound')
     = Generic.ResourceBinPackingPriorityMap {| Generic.resource := r |} pod nodeInfo.
Proof.
  split; [|reflexivity]. intros Hp.
  assert (Hused : Scarce.usedResource (EdgeCases.withPods nodeInfo bound') r
                  = Scarce.usedResource nodeInfo r).
  { rewrite !scarce_usedResource_sum. cbn [EdgeCases.withPods pods].
    unfold NodeInfoMethods.Pods in Hp.
    by rewrite (boundRequested_perm r _ _ Hp). }
  unfold Scarce.ScarceResourceBinPackingPriorityMap, Scarce.calculateScareResourceScore.
  cbn [Scarce.scarceResource]. by rewrite Hused.
Qed.

Lemma X9_bound_pod_order_is_irrelevant_witness :
  Scarce.ScarceResourceBinPackingPriorityMap
    {| Scarce.scarceResource := Fixtures.scarceResource |}
    (Scenarios.podOf Fixtures.scareResourcePod1)
    (EdgeCases.withPods EdgeCases.machine1Busy
       [ Scenarios.podOf Fixtures.scareResourcePod2;
         Scenarios.podOf Fixtures.scareResourcePod1 ])
  = Scarce.ScarceResourceBinPackingPriorityMap
      {| Scarce.scarceResource := Fixtures.scarceResource |}
      (Scenarios.podOf Fixtures.scareResourcePod1) EdgeCases.machine1Busy.
Proof.
  apply (proj1 (X9_bound_pod_order_is_irrelevant Fixtures.scarceResource
                  (Scenarios.podOf Fixtures.scareResourcePod1) EdgeCases.machine1Busy
                  [ Scenarios.podOf Fixtures.scareResourcePod2;
                    Scenarios.podOf Fixtures.scareResourcePod1 ])).
  apply perm_swap.
Defined.

(** ** The score as the utilization after binding *)

(** X10: the score the scarce-resource scorer computes for a pod is the
    utilization of the node once the pod is bound to it: the used total of
    the node state that lists the pod after the pods already bound is the
    used total plus the pod's demand, and the score computation divides ten
    times that total by the capacity. *)
Theorem X10_scarce_score_is_utilization_after_binding
    (r : string) (pod : Pod) (nodeInfo : NodeInfo) :
  let bound := EdgeCases.withPods nodeInfo (NodeInfoMethods.Pods nodeInfo ++ [pod]) in
  Scarce.usedResource bound r
  = add64 (Scarce.usedResource nodeInfo r) (Scarce.reqResource (Containers (Spec pod)) r)
  /\ Scarce.calculateScareResourceScore nodeInfo (Containers (Spec pod)) r
     = div64 (mul64 (Scarce.usedResource bound r) MaxPriority)
             (index (ScalarResources (NodeInfoMethods.AllocatableResource nodeInfo)) r).
Proof.
  intros bound.
  assert (Hused : Scarce.usedResource bound r
                  = add64 (Scarce.usedResource nodeInfo r)
                          (Scarce.reqResource (Containers (Spec pod)) r)).
  { unfold bound, Scarce.usedResource at 1, NodeInfoMethods.Pods.
    cbn [EdgeCases.withPods pods]. rewrite fold_left_app. cbn [fold_left].
    fold (NodeInfoMethods.Pods nodeInfo). fold (Scarce.usedResource nodeInfo r).
    rewrite addRequests_sum
      by (rewrite scarce_usedResource_sum; apply wrap64_inInt64).
    rewrite scarce_reqResource_sum. unfold add64. by rewrite wrap64_add_r. }
  split; [exact Hused|].
  unfold Scarce.calculateScareResourceScore. by rewrite Hused.
Qed.

(** ** Monotonicity in the demand and in the capacity *)

(** X11: the larger the demand, the higher the score. On one node state with
    a positive capacity, if the demand of a first pod is at most the demand
    of a second and (used + demand) * MaxPriority stays within the 64-bit
    range for both, both score computations return and the first score is
    at most the second, in either scorer. *)
Theorem X11_score_monotone_in_demand
    (r : string) (pod1 pod2 : Pod) (nodeInfo : NodeInfo) :
  0 < index (ScalarResources (NodeInfoMethods.AllocatableResource nodeInfo)) r ->
  (Generic.reqResource pod1 r <= Generic.reqResource pod2 r ->
   inInt64 ((Generic.usedResource nodeInfo r + Generic.reqResource pod1 r) * MaxPriority) ->
   inInt64 ((Generic.usedResource nodeInfo r + Generic.reqResource pod2 r) * MaxPriority) ->
   exists score1 score2,
     Generic.calculateScareResourceScore nodeInfo pod1 r = Returns score1
     /\ Generic.calculateScareResourceScore nodeInfo pod2 r = Returns score2
     /\ score1 <= score2)
  /\ (Scarce.reqResource (Containers (Spec pod1)) r
      <= Scarce.reqResource (Containers (Spec pod2)) r ->
      inInt64 ((Scarce.usedResource nodeInfo r
                + Scarce.reqResource (Containers (Spec pod1)) r) * MaxPriority) ->
      inInt64 ((Scarce.usedResource nodeInfo r
                + Scarce.reqResource (Containers (Spec pod2)) r) * MaxPriority) ->
      exists score1 score2,
        Scarce.calculateScareResourceScore nodeInfo (Containers (Spec pod1)) r
        = Returns score1
        /\ Scarce.calculateScareResourceScore nodeInfo (Containers (Spec pod2)) r
           = Returns score2
        /\ score1 <= score2).
Proof.
  intros Hav. split; intros Hle H1 H2.
  - eexists _, _. unfold Generic.calculateScareResourceScore.
    split; [by apply utilization_quot|]. split; [by apply utilization_quot|].
    apply Z.quot_le_mono; [done|]. unfold MaxPriority. lia.
  - eexists _, _. unfold Scarce.calculateScareResourceScore.
    split; [by apply utilization_quot|]. split; [by apply utilization_quot|].
    apply Z.quot_le_mono; [done|]. unfold MaxPriority. lia.
Qed.

Lemma X11_score_monotone_in_demand_witness :
  (exists score1 score2,
     Generic.calculateScareResourceScore Scenarios.machine1
       (Scenarios.podOf Fixtures.scareResourcePod1) Fixtures.scarceResource
     = Returns score1
     /\ Generic.calculateScareResourceScore Scenarios.machine1
          (Scenarios.podOf Fixtures.scareResourcePod2) Fixtures.scarceResource
        = Returns score2
     /\ score1 <= score2)
  /\ (exists score1 score2,
        Scarce.calculateScareResourceScore Scenarios.machine1
          (Containers (Spec (Scenarios.podOf Fixtures.scareResourcePod1)))
          Fixtures.scarceResource
        = Returns score1
        /\ Scarce.calculateScareResourceScore Scenarios.machine1
             (Containers (Spec (Scenarios.podOf Fixtures.scareResourcePod2)))
             Fixtures.scarceResource
           = Returns score2
        /\ score1 <= score2).
Proof.
  destruct (X11_score_monotone_in_demand Fixtures.scarceResource
              (Scenarios.podOf Fixtures.scareResourcePod1)
              (Scenarios.podOf Fixtures.scareResourcePod2) Scenarios.machine1)
    as [HG HS].
  - vm_compute. reflexivity.
  - split.
    + apply HG; vm_compute; try discriminate; split; discriminate.
    + apply HS; vm_compute; try discriminate; split; discriminate.
Defined.

(** X12: the smaller the capacity, the higher the score. For two node states
    with the same used total and capacities 0 < available1 <= available2, a
    pod with 0 <= used + demand and (used + demand) * MaxPriority within the
    64-bit range is scored on the second node at most as on the first, in
    either scorer. *)
Theorem X12_score_antitone_in_capacity
    (r : string) (pod : Pod) (nodeInfo1 nodeInfo2 : NodeInfo) :
  let available1 :=
    index (ScalarResources (NodeInfoMethods.AllocatableResource nodeInfo1)) r in
  let available2 :=
    index (ScalarResources (NodeInfoMethods.AllocatableResource nodeInfo2)) r in
  0 < available1 <= available2 ->
  (Generic.usedResource nodeInfo1 r = Generic.usedResource nodeInfo2 r ->
   0 <= Generic.usedResource nodeInfo1 r + Generic.reqResource pod r ->
   inInt64 ((Generic.usedResource nodeInfo1 r + Generic.reqResource pod r) * MaxPriority) ->
   exists score1 score2,
     Generic.calculateScareResourceScore nodeInfo1 pod r = Returns score1
     /\ Generic.calculateScareResourceScore nodeInfo2 pod r = Returns score2
     /\ score2 <= score1)
  /\ (Scarce.usedResource nodeInfo1 r = Scarce.usedResource nodeInfo2 r ->
      0 <= Scarce.usedResource nodeInfo1 r + Scarce.reqResource (Containers (Spec pod)) r ->
      inInt64 ((Scarce.usedResource nodeInfo1 r
                + Scarce.reqResource (Containers (Spec pod)) r) * MaxPriority) ->
      exists score1 score2,
        Scarce.calculateScareResourceScore nodeInfo1 (Containers (Spec pod)) r
        = Returns score1
        /\ Scarce.calculateScareResourceScore nodeInfo2 (Containers (Spec pod)) r
           = Returns score2
        /\ score2 <= score1).
Proof.
  intros available1 available2 [Hav1 Hav2].
  assert (Hquot : forall used demand,
            0 <= used + demand ->
            Z.quot ((used + demand) * MaxPriority) available2
            <= Z.quot ((used + demand) * MaxPriority) available1).
  { intros used demand Hnn. unfold MaxPriority.
    rewrite !Z.quot_div_nonneg by lia. apply Z.div_le_compat_l; lia. }
  split; intros Hused Hnn Hrange.
  - eexists _, _. unfold Generic.calculateScareResourceScore. rewrite <- Hused.
    split; [by apply utilization_quot|].
    split; [apply utilization_quot; [fold available2; lia | done]|].
    by apply Hquot.
  - eexists _, _. unfold Scarce.calculateScareResourceScore. rewrite <- Hused.
    split; [by apply utilization_quot|].
    split; [apply utilization_quot; [fold available2; lia | done]|].
    by apply Hquot.
Qed.

Lemma X12_score_antitone_in_capacity_witness :
  (exists score1 score2,
     Generic.calculateScareResourceScore Scenarios.machine2
       (Scenarios.podOf Fixtures.scareResourcePod1) Fixtures.scarceResource
     = Returns score1
     /\ Generic.calculateScareResourceScore Scenarios.machine1
          (Scenarios.podOf Fixtures.scareResourcePod1) Fixtures.scarceResource
        = Returns score2
     /\ score2 <= score1)
  /\ (exists score1 score2,
        Scarce.calculateScareResourceScore Scenarios.machine2
          (Containers (Spec (Scenarios.podOf Fixtures.scareResourcePod1)))
          Fixtures.scarceResource
        = Returns score1
        /\ Scarce.calculateScareResourceScore Scenarios.machine1
             (Containers (Spec (Scenarios.podOf Fixtures.scareResourcePod1)))
             Fixtures.scarceResource
           = Returns score2
        /\ score2 <= score1).
Proof.
  destruct (X12_score_antitone_in_capacity Fixtures.scarceResource
              (Scenarios.podOf Fixtures.scareResourcePod1)
              Scenarios.machine2 Scenarios.machine1) as [HG HS].
  - vm_compute. split; [reflexivity | discriminate].
  - split.
    + apply HG; vm_compute; try reflexivity; try discriminate; split; discriminate.
    + apply HS; vm_compute; try reflexivity; try discriminate; split; discriminate.
Defined.

(** ** The two demands compared *)

(** X13: the generic scorer never sees less demand than the scarce-resource
    scorer: its demand is at least the sum over the regular containers that
    the scarce-resource scorer uses. Hence, when both read the same used
    total on a node state with a positive capacity and
    (used + demand) * MaxPriority stays within the 64-bit range for both,
    the generic score is at least the scarce-resource score. *)
Theorem X13_generic_score_dominates_scarce
    (r : string) (pod : Pod) (nodeInfo : NodeInfo) :
  Scarce.reqResource (Containers (Spec pod)) r <= Generic.reqResource pod r
  /\ (0 < index (ScalarResources (NodeInfoMethods.AllocatableResource nodeInfo)) r ->
      Generic.usedResource nodeInfo r = Scarce.usedResource nodeInfo r ->
      inInt64 ((Generic.usedResource nodeInfo r + Generic.reqResource pod r)
               * MaxPriority) ->
      inInt64 ((Scarce.usedResource nodeInfo r
                + Scarce.reqResource (Containers (Spec pod)) r) * MaxPriority) ->
      exists scoreG scoreS,
        Generic.calculateScareResourceScore nodeInfo pod r = Returns scoreG
        /\ Scarce.calculateScareResourceScore nodeInfo (Containers (Spec pod)) r
           = Returns scoreS
        /\ scoreS <= scoreG).
Proof.
  assert (Hdem : Scarce.reqResource (Containers (Spec pod)) r <= Generic.reqResource pod r).
  { rewrite generic_reqResource_max, scarce_reqResource_sum. lia. }
  split; [exact Hdem|]. intros Hav Hused HG HS.
  eexists _, _. unfold Generic.calculateScareResourceScore, Scarce.calculateScareResourceScore.
  split; [by apply utilization_quot|]. split; [by apply utilization_quot|].
  apply Z.quot_le_mono; [done|]. unfold MaxPriority. lia.
Qed.

Lemma X13_generic_score_dominates_scarce_witness :
  exists scoreG scoreS,
    Generic.calculateScareResourceScore Scenarios.machine1
      (Scenarios.podOf Scenarios.initHeavy) Fixtures.scarceResource
    = Returns scoreG
    /\ Scarce.calculateScareResourceScore Scenarios.machine1
         (Containers (Spec (Scenarios.podOf Scenarios.initHeavy))) Fixtures.scarceResource
       = Returns scoreS
    /\ scoreS <= scoreG.
Proof.
  apply (proj2 (X13_generic_score_dominates_scarce Fixtures.scarceResource
                  (Scenarios.podOf Scenarios.initHeavy) Scenarios.machine1)).
  - vm_compute. reflexivity.
  - vm_compute. reflexivity.
  - vm_compute. split; discriminate.
  - vm_compute. split; discriminate.
Defined.

(** ** What the scorers read *)

(** X14: of the allocatable totals the scorers read only the scalar-resource
    map, also for the names cpu, storage and ephemeral-storage: two node
    states that differ only in the allocatable CPU, memory and ephemeral
    storage get the same outcome from either map function. *)
Theorem X14_capacity_is_read_from_scalar_resources_only
    (r : string) (pod : Pod) (nodeInfo : NodeInfo) (milliCPU memory ephemeral : Z) :
  let nodeInfo' :=
    {| node := node nodeInfo;
       pods := pods nodeInfo;
       requestedResource := requestedResource nodeInfo;
       allocatableResource :=
         {| MilliCPU := milliCPU; Memory := memory; EphemeralStorage := ephemeral;
            ScalarResources := ScalarResources (allocatableResource nodeInfo) |} |} in
  Generic.ResourceBinPackingPriorityMap {| Generic.resource := r |} pod nodeInfo'
  = Generic.ResourceBinPackingPriorityMap {| Generic.resource := r |} pod nodeInfo
  /\ Scarce.ScarceResourceBinPackingPriorityMap {| Scarce.scarceResource := r |}
       pod nodeInfo'
     = Scarce.ScarceResourceBinPackingPriorityMap {| Scarce.scarceResource := r |}
         pod nodeInfo.
Proof. intros nodeInfo'. split; reflexivity. Qed.

(** ** The loops as sums *)

(** X15: the totals the loops accumulate are the sums of the requested whole
    units, reduced to the signed 64-bit range. The used total of the
    scarce-resource scorer is the sum over all containers of all bound pods;
    its demand is the sum over the containers handed in; the demand of the
    generic scorer is the larger of the sum over the regular containers and
    the sum over the init containers. A container without a request entry
    for the name counts as zero. *)
Theorem X15_totals_are_wrapped_sums (r : string) (pod : Pod) (nodeInfo : NodeInfo) :
  let requested (c : Container) :=
    match Requests (Resources c) !! r with
    | Some q => Value q
    | None => 0
    end in
  let total (cs : list Container) := foldr (fun c acc => requested c + acc) 0 cs in
  Scarce.usedResource nodeInfo r
  = wrap64 (foldr (fun p acc => total (Containers (Spec p)) + acc) 0
              (NodeInfoMethods.Pods nodeInfo))
  /\ Scarce.reqResource (Containers (Spec pod)) r = wrap64 (total (Containers (Spec pod)))
  /\ Generic.reqResource pod r
     = Z.max (wrap64 (total (Containers (Spec pod))))
             (wrap64 (total (InitContainers (Spec pod)))).
Proof.
  intros requested total. split; [|split].
  - apply scarce_usedResource_sum.
  - apply scarce_reqResource_sum.
  - apply generic_reqResource_max.
Qed.
